(** * RuleForge MCP: project detection and rule generation

    A shallow embedding of [core/project_analyzer.py], [core/rule_generator.py],
    [core/utils.py] and [mcp_tools.py].

    Conventions of the embedding:
    - a Python [dict] with string keys is a [gmap string pyval];
    - a function that can raise returns a control value ([Raised], [Exc],
      or [None] in an [option]) next to the state it has built so far,
      because the source keeps the partially filled [details] dictionary
      after a caught exception;
    - the file system, the XML and JSON parsers and the subprocess layer are
      read through the record [World], one field per library call of the
      source; a write gives a new world;
    - the lines printed under [verbose] are kept for the rule generator,
      where a stated property speaks of output, and left out for the
      analyzer and the tools, where they are diagnostics only;
    - the literal text blocks of the rule generator are named by the type
      [block] and rendered by a function that the generator takes as a
      parameter;
    - paths follow [posixpath] ([sys.platform] is not ['win32']);
    - text is ASCII: the classes [\d], [\s] and [\w] are the ASCII ones. *)

From Stdlib Require Import ZArith String Ascii List Bool Lia DecimalString.
From stdpp Require Import gmap strings list fin_maps.

Open Scope string_scope.
Open Scope list_scope.
Open Scope Z_scope.

Set Warnings "-register-all".

(** ** Strings *)

Module Str.

Definition dquote : string := String (ascii_of_nat 34) "".
Definition newline : string := String (ascii_of_nat 10) "".

(** [s.startswith(p)] *)
Definition startswith (s p : string) : bool := String.prefix p s.

(** [sub in s] *)
Fixpoint contains (sub s : string) : bool :=
  String.prefix sub s ||
  match s with
  | EmptyString => false
  | String _ s' => contains sub s'
  end.

(** [s.endswith(p)] *)
Definition endswith (s p : string) : bool :=
  let n := String.length s in
  let m := String.length p in
  (m <=? n)%nat && String.eqb (String.substring (n - m) m s) p.

(** [x in l] for a list of strings *)
Definition mem (x : string) (l : list string) : bool :=
  existsb (String.eqb x) l.

(** [sep.join(l)] *)
Definition join (sep : string) (l : list string) : string :=
  String.concat sep l.

Definition is_space (c : ascii) : bool :=
  let n := nat_of_ascii c in
  ((9 <=? n) && (n <=? 13) || (28 <=? n) && (n <=? 32))%nat.

Definition is_digit (c : ascii) : bool :=
  let n := nat_of_ascii c in ((48 <=? n) && (n <=? 57))%nat.

Definition is_word (c : ascii) : bool :=
  let n := nat_of_ascii c in
  (is_digit c || (65 <=? n) && (n <=? 90) || (97 <=? n) && (n <=? 122)
   || (n =? 95))%nat.

Fixpoint lstrip (s : string) : string :=
  match s with
  | String c s' => if is_space c then lstrip s' else s
  | EmptyString => EmptyString
  end.

Fixpoint rstrip (s : string) : string :=
  match s with
  | EmptyString => EmptyString
  | String c s' =>
      match rstrip s' with
      | EmptyString => if is_space c then EmptyString else String c EmptyString
      | r => String c r
      end
  end.

(** [s.strip()] *)
Definition strip (s : string) : string := rstrip (lstrip s).

Definition lower_char (c : ascii) : ascii :=
  let n := nat_of_ascii c in
  if ((65 <=? n) && (n <=? 90))%nat then ascii_of_nat (n + 32) else c.

(** [s.lower()] *)
Fixpoint lower (s : string) : string :=
  match s with
  | EmptyString => EmptyString
  | String c s' => String (lower_char c) (lower s')
  end.

(** [s.split(sep)] for a one-character separator: the pieces between the
    separators, empty pieces included. *)
Fixpoint split_aux (sep : ascii) (s cur : string) : list string :=
  match s with
  | EmptyString => [cur]
  | String c s' =>
      if Ascii.eqb c sep then cur :: split_aux sep s' ""
      else split_aux sep s' (cur +:+ String c "")
  end.

Definition split (sep : ascii) (s : string) : list string :=
  split_aux sep s "".

(** [s.replace(old, "")] for a non-empty [old]: [skip] counts the
    characters of an occurrence still to drop. *)
Fixpoint remove_all_aux (old s : string) (skip : nat) : string :=
  match s with
  | EmptyString => EmptyString
  | String c s' =>
      match skip with
      | S k => remove_all_aux old s' k
      | O => if String.prefix old s
             then remove_all_aux old s' (String.length old - 1)
             else String c (remove_all_aux old s' 0)
      end
  end.

Definition remove_all (old s : string) : string := remove_all_aux old s 0.

(** [str(n)] for a natural number. *)
Definition of_nat (n : nat) : string :=
  DecimalString.NilZero.string_of_uint (Nat.to_uint n).

(** [str(z)] for an integer. *)
Definition of_Z (z : Z) : string :=
  DecimalString.NilZero.string_of_int (Z.to_int z).

End Str.

(** ** JSON values ([json.load]) *)

Module Json.

Inductive value :=
| JNull
| JBool (b : bool)
| JInt (z : Z)
| JFloat (nonzero : bool) (repr : string)
| JStr (s : string)
| JArr (l : list value)
| JObj (members : list (string * value)).

Definition truthy (v : value) : bool :=
  match v with
  | JNull => false
  | JBool b => b
  | JInt z => negb (z =? 0)
  | JFloat nz _ => nz
  | JStr s => negb (String.eqb s "")
  | JArr l => match l with [] => false | _ => true end
  | JObj ms => match ms with [] => false | _ => true end
  end.

(** Lookup in an object; [json.load] keeps the last of duplicate keys. *)
Definition lookup (ms : list (string * value)) (k : string) : option value :=
  option_map snd (List.find (fun kv => String.eqb (fst kv) k) (rev ms)).

(** [v.get(k, dflt)]: [None] is [AttributeError] (only a dict has [get]). *)
Definition get (v : value) (k : string) (dflt : value) : option value :=
  match v with
  | JObj ms => Some (default dflt (lookup ms k))
  | _ => None
  end.

Definition is_str (s : string) (v : value) : bool :=
  match v with JStr x => String.eqb x s | _ => false end.

(** [k in v] for a string [k]: key of a dict, element of a list, substring
    of a string; [None] is [TypeError]. *)
Definition contains (k : string) (v : value) : option bool :=
  match v with
  | JObj ms => Some (existsb (fun kv => String.eqb (fst kv) k) ms)
  | JArr l => Some (existsb (is_str k) l)
  | JStr s => Some (Str.contains k s)
  | _ => None
  end.

End Json.

(** ** Python values stored in the [details] / [detected_tech] dictionaries *)

Inductive pyval :=
| PNone
| PBool (b : bool)
| PInt (z : Z)
| PStr (s : string)
| PList (l : list string)
| PJson (j : Json.value).   (* a JSON float, array or object, kept as read *)

(** Truth value of an object, as tested by [if x:]. *)
Definition py_truthy (v : pyval) : bool :=
  match v with
  | PNone => false
  | PBool b => b
  | PInt z => negb (z =? 0)
  | PStr s => negb (String.eqb s "")
  | PList l => match l with [] => false | _ => true end
  | PJson j => Json.truthy j
  end.

(** A value read by [json.load], as a Python object. *)
Definition py_of_json (v : Json.value) : pyval :=
  match v with
  | Json.JNull => PNone
  | Json.JBool b => PBool b
  | Json.JInt z => PInt z
  | Json.JStr s => PStr s
  | _ => PJson v
  end.

(** [d.get(k)] is [None] for a missing key, so [if d.get(k):] tests this. *)
Definition get_truthy (d : gmap string pyval) (k : string) : bool :=
  match d !! k with
  | Some v => py_truthy v
  | None => false
  end.

(** [d.get(k)] itself. *)
Definition py_get (d : gmap string pyval) (k : string) : pyval :=
  default PNone (d !! k).

(** [d.update(e)]: the entries of [e] win. *)
Definition py_update (d e : gmap string pyval) : gmap string pyval := e ∪ d.

(** [d.get(k, dflt)] *)
Definition py_get_default (d : gmap string pyval) (k : string) (dflt : pyval) : pyval :=
  default dflt (d !! k).

(** [str(v)], as an f-string interpolates it.  A list is shown with its
    items between single quotes (the [repr] of a string without characters
    to escape); a JSON float, array or object, which only the keys
    [angular_core_version] and [vue_version] can hold, is shown as [json]. *)
Definition py_str (v : pyval) : string :=
  match v with
  | PNone => "None"
  | PBool b => if b then "True" else "False"
  | PInt z => Str.of_Z z
  | PStr s => s
  | PList l => "[" +:+ Str.join ", " (map (fun x => "'" +:+ x +:+ "'") l) +:+ "]"
  | PJson _ => "json"
  end.

(** The integer a value compares as: [bool] is a subclass of [int]. *)
Definition py_as_int (v : pyval) : option Z :=
  match v with
  | PInt z => Some z
  | PBool b => Some (if b then 1 else 0)
  | _ => None
  end.

(** [v == n] for an integer literal [n]. *)
Definition py_eq_int (v : pyval) (n : Z) : bool :=
  match py_as_int v with
  | Some z => z =? n
  | None => false
  end.

(** [v == s] for a string literal [s]. *)
Definition py_eq_str (v : pyval) (s : string) : bool :=
  match v with
  | PStr x => String.eqb x s
  | _ => false
  end.

(** [v >= n], [v > n], [v < n] for an integer literal: [None] is the
    [TypeError] of an ordering between a non-number and [int]. *)
Definition py_ge_int (v : pyval) (n : Z) : option bool :=
  option_map (fun z => n <=? z) (py_as_int v).
Definition py_gt_int (v : pyval) (n : Z) : option bool :=
  option_map (fun z => n <? z) (py_as_int v).
Definition py_lt_int (v : pyval) (n : Z) : option bool :=
  option_map (fun z => z <? n) (py_as_int v).

(** Can [v] be the key of a dictionary lookup?  A list cannot
    ([TypeError: unhashable type]). *)
Definition py_hashable (v : pyval) : bool :=
  match v with
  | PList _ => false
  | PJson (Json.JArr _) => false
  | PJson (Json.JObj _) => false
  | _ => true
  end.

(** [', '.join(v)]: a list of strings, or a string (joined character by
    character); [None] is [TypeError]. *)
Definition py_join (v : pyval) : option string :=
  match v with
  | PList l => Some (Str.join ", " l)
  | PStr s => Some (Str.join ", " (map (fun c => String c "") (list_ascii_of_string s)))
  | _ => None
  end.

(** ** Paths ([posixpath]) *)

Fixpoint dropwhile' {A} (f : A → bool) (l : list A) : list A :=
  match l with
  | x :: l' => if f x then dropwhile' f l' else l
  | [] => []
  end.

(** [os.path.join(a, b)] *)
Definition path_join (a b : string) : string :=
  if Str.startswith b "/" then b
  else if String.eqb a "" || Str.endswith a "/" then a +:+ b
  else a +:+ "/" +:+ b.

(** [os.path.dirname(p)]: the part before the last slash, without its
    trailing slashes unless it consists of slashes only. *)
Definition path_dirname (p : string) : string :=
  let is_slash c := Ascii.eqb c "/" in
  let head_rev := dropwhile' (fun c => negb (is_slash c)) (rev (list_ascii_of_string p)) in
  if forallb is_slash head_rev then string_of_list_ascii head_rev
  else string_of_list_ascii (rev (dropwhile' is_slash head_rev)).

(** [os.path.join(a, b1, ..., bn)] *)
Definition path_join_all (a : string) (bs : list string) : string :=
  fold_left path_join bs a.

(** ** Regular expressions ([re.search], [re.match])

    Every pattern of the source is a sequence of single-character classes,
    each with a quantifier, with capture groups that do not nest and the
    anchors [^] and [$].  [tok] is that fragment; matching backtracks over
    the length of each run, longest first for a greedy quantifier and
    shortest first for a lazy one, as [re] does. *)

Module Re.

Inductive quant := One | Opt | Star | Plus | LazyStar.

Inductive tok :=
| Cls (p : ascii → bool) (q : quant)
| Open
| Close
| Bol        (* [^] under [re.MULTILINE] *)
| Eol.       (* [$] under [re.MULTILINE] *)

Definition chr (c : ascii) : ascii → bool := Ascii.eqb c.
Definition chr_i (c : ascii) : ascii → bool :=
  fun a => Ascii.eqb (Str.lower_char a) (Str.lower_char c).
Definition one_of (s : string) : ascii → bool :=
  fun a => existsb (Ascii.eqb a) (list_ascii_of_string s).
Definition none_of (s : string) : ascii → bool :=
  fun a => negb (one_of s a).
(** [.] under [re.DOTALL] *)
Definition any : ascii → bool := fun _ => true.
Definition nl : ascii := ascii_of_nat 10.

(** A literal piece of a pattern. *)
Definition lit (s : string) : list tok :=
  map (fun c => Cls (chr c) One) (list_ascii_of_string s).
(** The same under [re.IGNORECASE]. *)
Definition lit_i (s : string) : list tok :=
  map (fun c => Cls (chr_i c) One) (list_ascii_of_string s).

(** Length of the longest prefix of [s] inside the class. *)
Fixpoint run_length (p : ascii → bool) (s : string) : nat :=
  match s with
  | String a s' => if p a then S (run_length p s') else O
  | EmptyString => O
  end.

Definition take (k : nat) (s : string) : string := String.substring 0 k s.
Definition drop (k : nat) (s : string) : string :=
  String.substring k (String.length s - k) s.

(** Try the counts [k, k-1, ..., lo], the first success wins. *)
Fixpoint longest_first {R} (k lo : nat) (cont : nat → option R) : option R :=
  if (k <? lo)%nat then None else
  match cont k with
  | Some r => Some r
  | None => match k with
            | O => None
            | S k' => longest_first k' lo cont
            end
  end.

(** Try the counts [lo, lo+1, ..., lo+span], the first success wins. *)
Fixpoint shortest_first {R} (lo span : nat) (cont : nat → option R) : option R :=
  match cont lo with
  | Some r => Some r
  | None => match span with
            | O => None
            | S span' => shortest_first (S lo) span' cont
            end
  end.

Definition extend (acc : option string) (piece : string) : option string :=
  match acc with
  | Some a => Some (a +:+ piece)
  | None => None
  end.

(** The character before the position reached after [k] more characters. *)
Definition last_char (prev : option ascii) (s : string) (k : nat) : option ascii :=
  match k with
  | O => prev
  | S k' => String.get k' s
  end.

(** Match [p] at the start of [s].  [prev] is the character before [s] in
    the subject, [acc] the text of the group being read, [grps] the closed
    groups, last first.  The result is the list of groups of the
    successful match, in the order of the pattern. *)
Fixpoint match_here (p : list tok) (prev : option ascii) (s : string)
    (acc : option string) (grps : list string) : option (list string) :=
  match p with
  | [] => Some (rev grps)
  | Open :: rest => match_here rest prev s (Some "") grps
  | Close :: rest => match_here rest prev s None (default "" acc :: grps)
  | Bol :: rest =>
      match prev with
      | None => match_here rest prev s acc grps
      | Some c => if Ascii.eqb c nl then match_here rest prev s acc grps else None
      end
  | Eol :: rest =>
      match s with
      | EmptyString => match_here rest prev s acc grps
      | String c _ => if Ascii.eqb c nl then match_here rest prev s acc grps else None
      end
  | Cls c q :: rest =>
      let n := run_length c s in
      let continue k :=
        match_here rest (last_char prev s k) (drop k s) (extend acc (take k s)) grps in
      match q with
      | One => if (1 <=? n)%nat then continue 1%nat else None
      | Opt => longest_first (Nat.min n 1) 0 continue
      | Star => longest_first n 0 continue
      | Plus => longest_first n 1 continue
      | LazyStar => shortest_first 0 n continue
      end
  end.

Fixpoint search_from (p : list tok) (prev : option ascii) (s : string)
  : option (list string) :=
  match match_here p prev s None [] with
  | Some g => Some g
  | None => match s with
            | EmptyString => None
            | String c s' => search_from p (Some c) s'
            end
  end.

(** [re.search(p, s)]: the leftmost match; [None] when nothing matches,
    else the groups [group(1)], [group(2)], ... *)
Definition search (p : list tok) (s : string) : option (list string) :=
  search_from p None s.

(** [re.match(p, s)], also [re.search('^' + p, s)] without
    [re.MULTILINE]. *)
Definition search_at_start (p : list tok) (s : string) : option (list string) :=
  match_here p None s None [].

(** [m.group(i)] for [i >= 1]. *)
Definition group (i : nat) (m : list string) : string :=
  nth (i - 1) m "".

Definition digits_plus : tok := Cls Str.is_digit Plus.
Definition spaces_star : tok := Cls Str.is_space Star.

End Re.

(** [int(s)] for a string: surrounding white space, an optional sign, digits
    with single underscores between them, and no more digits than
    [sys.int_info.default_max_str_digits], which the program leaves at its
    default.  [None] is [ValueError]. *)
Module PyInt.

Definition digit_val (c : ascii) : Z := Z.of_nat (nat_of_ascii c - 48).

Definition max_str_digits : Z := 4300.

(** The number of digits of [s]; underscores do not count. *)
Fixpoint count_digits (s : string) : Z :=
  match s with
  | EmptyString => 0
  | String c s' => (if Str.is_digit c then 1 else 0) + count_digits s'
  end.

(** Digits and inner underscores; [prev_digit] tells whether the previous
    character was a digit (an underscore must sit between two digits). *)
Fixpoint digits (s : string) (acc : Z) (prev_digit : bool) : option Z :=
  match s with
  | EmptyString => if prev_digit then Some acc else None
  | String c s' =>
      if Str.is_digit c then digits s' (10 * acc + digit_val c) true
      else if Ascii.eqb c "_" && prev_digit then
        match s' with
        | String d _ => if Str.is_digit d then digits s' acc false else None
        | EmptyString => None
        end
      else None
  end.

Definition parse (s : string) : option Z :=
  match Str.strip s with
  | String c r =>
      if max_str_digits <? count_digits (String c r) then None
      else if Ascii.eqb c "-" then option_map Z.opp (digits r 0 false)
      else if Ascii.eqb c "+" then digits r 0 false
      else digits (String c r) 0 false
  | EmptyString => None
  end.

End PyInt.

(** ** XML trees ([xml.etree.ElementTree]) *)

Module ET.

Inductive Element :=
| Elem (tag : string) (text : option string)
       (attrib : list (string * string)) (children : list Element).

Definition tag (e : Element) : string :=
  match e with Elem t _ _ _ => t end.
(** [e.text]: [None] for an element without character data. *)
Definition text (e : Element) : option string :=
  match e with Elem _ t _ _ => t end.
Definition children (e : Element) : list Element :=
  match e with Elem _ _ _ c => c end.
(** [e.get(name)] *)
Definition get (e : Element) (name : string) : option string :=
  match e with
  | Elem _ _ a _ => option_map snd (List.find (fun kv => String.eqb (fst kv) name) a)
  end.

(** The tag that the path ["m:" + local] selects under
    [ns = {"m": "http://maven.apache.org/POM/4.0.0"}]. *)
Definition m (local : string) : string :=
  "{http://maven.apache.org/POM/4.0.0}" +:+ local.

(** [e.find(path)]: the first direct child with that tag. *)
Definition find (e : Element) (t : string) : option Element :=
  List.find (fun c => String.eqb (tag c) t) (children e).

(** [e.findall(path)]: the direct children with that tag, in order. *)
Definition findall (e : Element) (t : string) : list Element :=
  List.filter (fun c => String.eqb (tag c) t) (children e).

End ET.

(** ** Directory trees ([os.walk]) *)

(** A directory: its plain files and its sub-directories, in listing order. *)
Inductive dirtree :=
| Dir (files : list string) (subdirs : list (string * dirtree)).

(** [os.walk(top)], top-down: the triples [(root, dirs, files)] in the order
    they are produced.  [keep] is the filter a caller applies in place to
    [dirs] ([dirs[:] = [d for d in dirs if ...]]), which prunes the descent;
    a caller that leaves [dirs] alone passes [fun _ => true]. *)
Fixpoint os_walk (keep : string → bool) (top : string) (t : dirtree)
  : list (string * list string * list string) :=
  match t with
  | Dir files subdirs =>
      (top, map fst (List.filter (fun d => keep (fst d)) subdirs), files)
      :: flat_map (fun d => if keep (fst d)
                            then os_walk keep (path_join top (fst d)) (snd d)
                            else []) subdirs
  end.

(** ** The world outside the program *)

(** [open(p, 'r', encoding='utf-8').read()] *)
Inductive read_result :=
| ReadOk (content : string)
| ReadIOError          (* an [IOError] / [OSError] *)
| ReadDecodeError.     (* [UnicodeDecodeError], a [ValueError] *)

(** [json.load] on an opened file. *)
Inductive json_result :=
| JsonOk (v : Json.value)
| JsonDecodeError
| JsonIOError
| JsonUnicodeError.

(** [subprocess.run(argv, capture_output=True, text=True, timeout=t)] *)
Inductive run_result :=
| Completed (returncode : Z) (stdout stderr : string)
| TimeoutExpired
| FileNotFoundError
| OtherRunError.

(** The exception of a call on the write side: an [OSError], which
    [IOError] names as well, or another one, such as the [ValueError] of a
    name with an embedded null character. *)
Inductive write_error :=
| RaisesOSError
| RaisesOtherError.

(** [float(s)] is not computed; the world answers the two comparisons that
    the source makes with it.  [None] is [ValueError]. *)
Record float_view := { lt_2_5 : bool; lt_3_0 : bool }.

Record World := {
  os_path_isdir : string → bool;
  os_path_exists : string → bool;
  os_path_abspath : string → string;
  (** [os.path.relpath(p, start)] *)
  os_path_relpath : string → string → string;
  os_getcwd : string;
  environ_CURSOR_WORKSPACE : option string;
  (** [os.path.dirname(__file__)] of [core/rule_generator.py] *)
  core_dir : string;
  read_text : string → read_result;
  (** [ET.parse(p).getroot()]; [None] when it raises ([ParseError] or other) *)
  ET_parse : string → option ET.Element;
  json_load : string → json_result;
  (** the tree below a directory; [None] when it cannot be listed *)
  listing : string → option dirtree;
  subprocess_run : list string → Z → run_result;
  py_float : string → option float_view;
  (** faults of the write side ([None]: no fault).
      [os.makedirs(p, exist_ok=True)] raises the given exception once it
      has made the given directories; [open(p, 'w')] raises the given
      exception and leaves the file alone; of the data written to the file
      [p] only that many characters reach it, and the [write], the flush or
      the [close] that meets the fault raises [OSError] *)
  makedirs_fault : string → option (write_error * list string);
  open_w_fault : string → option write_error;
  write_fault : string → option nat;
}.

(** [os.walk(p)] in a world. *)
Definition walk (w : World) (keep : string → bool) (p : string)
  : list (string * list string * list string) :=
  match listing w p with
  | Some t => os_walk keep p t
  | None => []
  end.

(** ** [core/project_analyzer.py] *)

(** The project types that the probes return. *)
Inductive category :=
| java_legacy_spring | springboot | angular | vue | python | gitlab_ci.

Definition category_name (c : category) : string :=
  match c with
  | java_legacy_spring => "java_legacy_spring"
  | springboot => "springboot"
  | angular => "angular"
  | vue => "vue"
  | python => "python"
  | gitlab_ci => "gitlab_ci"
  end.

(** What a call [checker_func(project_path, verbose)] does: it raises, or it
    returns the pair [(project_type, details)]. *)
Inductive checker_result :=
| Raised
| Returned (project_type : option category) (details : gmap string pyval).

(** Control after a [try] body or a loop body that shares [details]:
    it ran to its end, executed a [return], or let an exception escape. *)
Inductive ctl (R : Type) :=
| Fall
| Ret (r : R)
| Exc.
Arguments Fall {R}.
Arguments Ret {R} r.
Arguments Exc {R}.

(** [try: body / except Exception: pass] *)
Definition caught {R S} (r : ctl R * S) : ctl R * S :=
  match r with
  | (Exc, st) => (Fall, st)
  | other => other
  end.

Module Analyzer.

(** [check_gitlab_ci] *)
Definition check_gitlab_ci (w : World) (project_path : string) : checker_result :=
  let gitlab_ci_yml_path := path_join project_path ".gitlab-ci.yml" in
  if os_path_exists w gitlab_ci_yml_path
  then Returned (Some gitlab_ci) ∅
  else Returned None ∅.

(** *** Helpers shared by the probes *)

(** [elem.text] as a Python object. *)
Definition py_of_text (t : option string) : pyval :=
  match t with Some x => PStr x | None => PNone end.

(** [t == s] for a text that may be [None]. *)
Definition text_is (t : option string) (s : string) : bool :=
  match t with Some x => String.eqb x s | None => false end.

(** [sub in t]: [TypeError] ([None]) when [t] is [None]. *)
Definition in_text (sub : string) (t : option string) : option bool :=
  match t with Some x => Some (Str.contains sub x) | None => None end.

(** [c and sub in t]: [t] is looked at only when [c] holds. *)
Definition and_in (c : bool) (sub : string) (t : option string) : option bool :=
  if c then in_text sub t else Some false.

(** The two quote characters, as a character class. *)
Definition quotes : string := "'" +:+ Str.dquote.

Definition set_true (k : string) (details : gmap string pyval) : gmap string pyval :=
  <[k := PBool true]> details.

(** [for x in l: body], where the body can fall through, return or raise;
    [details] is the dictionary the iterations share. *)
Fixpoint for_loop {A R S} (body : A → S → ctl R * S)
    (l : list A) (details : S) : ctl R * S :=
  match l with
  | [] => (Fall, details)
  | x :: l' =>
      match body x details with
      | (Fall, details') => for_loop body l' details'
      | stop => stop
      end
  end.

(** A body that cannot return: [None] is an exception, raised before the
    body has changed [details]. *)
Definition no_return {A R S} (body : A → S → option S)
    (x : A) (details : S) : ctl R * S :=
  match body x details with
  | Some details' => (Fall, details')
  | None => (Exc, details)
  end.

(** *** [check_spring_boot] *)

(** The body of the dependency loop under a Spring Boot parent
    (lines 280-321). *)
Definition spring_boot_parent_dependency (dep : ET.Element)
    (details : gmap string pyval) : option (gmap string pyval) :=
  match ET.find dep (ET.m "groupId"), ET.find dep (ET.m "artifactId") with
  | Some groupId, Some artifactId =>
      let group_text := ET.text groupId in
      let artifact_text := ET.text artifactId in
      if text_is group_text "org.springframework.boot"
         && text_is artifact_text "spring-boot-starter-security"
      then Some (set_true "uses_spring_security" details)
      else if text_is group_text "org.springframework.boot"
              && text_is artifact_text "spring-boot-starter-data-jpa"
      then Some (set_true "uses_spring_data_jpa" details)
      else if text_is group_text "org.springframework.boot"
              && text_is artifact_text "spring-boot-starter-actuator"
      then Some (set_true "uses_actuator" details)
      else if text_is group_text "org.springframework.boot"
              && text_is artifact_text "spring-boot-starter-webflux"
      then Some (set_true "uses_webflux" details)
      else if match group_text with
              | Some g => negb (String.eqb g "")
                          && Str.contains "org.springframework.cloud" g
              | None => false
              end
      then Some (set_true "uses_spring_cloud" details)
      else
        is_mysql ← and_in (text_is group_text "mysql") "mysql-connector" artifact_text;
        if (is_mysql : bool) then Some (set_true "database_mysql" details) else
        is_pg ← and_in (text_is group_text "org.postgresql") "postgresql" artifact_text;
        if (is_pg : bool) then Some (set_true "database_postgresql" details) else
        is_h2 ← and_in (text_is group_text "com.h2database") "h2" artifact_text;
        if (is_h2 : bool)
        then Some (set_true "h2_console_risk" (set_true "database_h2" details))
        else Some details
  | _, _ => Some details
  end.

(** [r'(\d+)'] *)
Definition re_number : list Re.tok := [Re.Open; Re.digits_plus; Re.Close].

(** Lines 251-273: the version of the parent. *)
Definition spring_boot_parent_version (version_text : option string)
    (details : gmap string pyval) : ctl (option category) * gmap string pyval :=
  let details := <["spring_boot_version" := py_of_text version_text]> details in
  match version_text with
  | None => (Exc, details)                 (* [re.search] on [None] *)
  | Some v =>
      match Re.search re_number v with
      | None => (Fall, details)
      | Some version_match =>
          match PyInt.parse (Re.group 1 version_match) with
          | None => (Exc, details)
          | Some major_version =>
              let details :=
                <["spring_boot_major_version" := PInt major_version]> details in
              if major_version =? 1 then
                (Fall, <["security_priority" := PStr "high"]>
                         (set_true "is_legacy" details))
              else if major_version =? 2 then
                (Fall, <["security_priority" := PStr "medium"]>
                         (set_true "is_modern" details))
              else if 3 <=? major_version then
                (Fall, <["security_priority" := PStr "low"]>
                         (set_true "requires_java17"
                            (set_true "is_latest" details)))
              else (Fall, details)
          end
      end
  end.

(** The body of the second dependency loop (lines 328-341). *)
Definition spring_boot_starter_dependency (root dep : ET.Element)
    (details : gmap string pyval) : ctl (option category) * gmap string pyval :=
  let groupId := ET.find dep (ET.m "groupId") in
  let artifactId := ET.find dep (ET.m "artifactId") in
  match groupId with
  | Some g =>
      if text_is (ET.text g) "org.springframework.boot" then
        match artifactId with
        | Some a =>
            match in_text "spring-boot-starter" (ET.text a) with
            | None => (Exc, details)
            | Some false => (Fall, details)
            | Some true =>
                let details :=
                  match details !! "spring_boot_version" with
                  | Some _ => details
                  | None =>
                      match ET.find root (ET.m "properties") with
                      | Some properties =>
                          match ET.find properties (ET.m "spring-boot.version") with
                          | Some prop =>
                              <["spring_boot_version" := py_of_text (ET.text prop)]> details
                          | None => details
                          end
                      | None => details
                      end
                  end in
                (Ret (Some springboot), details)
            end
        | None => (Fall, details)
        end
      else (Fall, details)
  | None => (Fall, details)
  end.

(** The body of [try:] at lines 242-341, after [ET.parse] has succeeded. *)
Definition spring_boot_pom (root : ET.Element)
    (details : gmap string pyval) : ctl (option category) * gmap string pyval :=
  let starters details :=
    match ET.find root (ET.m "dependencies") with
    | Some dependencies =>
        for_loop (spring_boot_starter_dependency root)
                 (ET.findall dependencies (ET.m "dependency")) details
    | None => (Fall, details)
    end in
  match ET.find root (ET.m "parent") with
  | Some parent =>
      match ET.find parent (ET.m "artifactId") with
      | Some artifactId =>
          if text_is (ET.text artifactId) "spring-boot-starter-parent" then
            let '(c, details) :=
              match ET.find parent (ET.m "version") with
              | Some version_tag =>
                  spring_boot_parent_version (ET.text version_tag) details
              | None => (Fall, details)
              end in
            match c with
            | Fall =>
                let '(c, details) :=
                  match ET.find root (ET.m "dependencies") with
                  | Some dependencies =>
                      for_loop (no_return spring_boot_parent_dependency)
                               (ET.findall dependencies (ET.m "dependency")) details
                  | None => (Fall, details)
                  end in
                match c with
                | Fall => (Ret (Some springboot), details)
                | stop => (stop, details)
                end
            | stop => (stop, details)
            end
          else starters details
      | None => starters details
      end
  | None => starters details
  end.

Definition check_spring_boot (w : World) (project_path : string) : checker_result :=
  let pom_path := path_join project_path "pom.xml" in
  let gradle_path := path_join project_path "build.gradle" in
  let application_props_main :=
    path_join_all project_path ["src"; "main"; "resources"; "application.properties"] in
  let application_yml_main :=
    path_join_all project_path ["src"; "main"; "resources"; "application.yml"] in
  let application_yaml_main :=
    path_join_all project_path ["src"; "main"; "resources"; "application.yaml"] in
  let details : gmap string pyval := ∅ in
  (* pom.xml; both [except] clauses only print *)
  let '(c, details) :=
    if os_path_exists w pom_path then
      caught match ET_parse w pom_path with
             | Some root => spring_boot_pom root details
             | None => (Exc, details)
             end
    else (Fall, details) in
  match c with
  | Ret r => Returned r details
  | _ =>
      (* build.gradle *)
      let gradle_match :=
        if os_path_exists w gradle_path then
          match read_text w gradle_path with
          | ReadOk content =>
              Str.contains "org.springframework.boot" content
              || Str.contains "spring-boot-gradle-plugin" content
          | _ => false
          end
        else false in
      if gradle_match then Returned (Some springboot) details
      else if os_path_exists w application_props_main
              || os_path_exists w application_yml_main
              || os_path_exists w application_yaml_main
      then Returned (Some springboot) details
      else Returned None ∅
  end.

(** *** [check_java_legacy] *)

(** [t] is a non-empty string: [if t:] *)
Definition text_truthy (t : option string) : bool :=
  match t with Some x => negb (String.eqb x "") | None => false end.

(** The state of the file walk of lines 30-46. *)
Record jsp_scan := {
  scan_details : gmap string pyval;
  jsp_files_found : nat;
  spring_xml_present : bool;
}.

(** The body of [for file in files] (lines 34-44); [Ret] stands for
    [break]. *)
Definition legacy_file (root file : string) (st : jsp_scan) : ctl unit * jsp_scan :=
  let st :=
    if Str.endswith file ".jsp" || Str.endswith file ".jspf"
       || Str.endswith file ".jspx" then
      let n := S (jsp_files_found st) in
      {| scan_details :=
           if (n <=? 3)%nat
           then <["jsp_file_" +:+ Str.of_nat n := PStr (path_join root file)]>
                  (scan_details st)
           else scan_details st;
         jsp_files_found := n;
         spring_xml_present := spring_xml_present st |}
    else st in
  if (Str.contains "applicationContext.xml" file
      || Str.contains "spring-servlet.xml" file
      || Str.endswith file "-context.xml")
     && Str.endswith file ".xml"
  then (Ret (),
        {| scan_details :=
             <["spring_xml_config" := PStr (path_join root file)]> (scan_details st);
           jsp_files_found := jsp_files_found st;
           spring_xml_present := true |})
  else (Fall, st).

(** The body of [for root, _, files in os.walk(project_path)]. *)
Definition legacy_directory (t : string * list string * list string)
    (st : jsp_scan) : ctl unit * jsp_scan :=
  let '(root, _, files) := t in
  if Str.contains "target" root || Str.contains "build" root
     || Str.contains ".git" root || Str.contains "node_modules" root
  then (Fall, st)
  else
    let st := snd (for_loop (legacy_file root) files st) in
    if spring_xml_present st then (Ret (), st) else (Fall, st).

(** The local variables of the dependency loop (lines 87-92). *)
Record legacy_flags := {
  spring_version_from_deps : option string;
  uses_spring_security : bool;
  uses_spring_webmvc : bool;
  uses_spring_orm : bool;
  uses_hibernate : bool;
  uses_struts : bool;
}.

Definition with_security (f : legacy_flags) : legacy_flags :=
  {| spring_version_from_deps := spring_version_from_deps f;
     uses_spring_security := true; uses_spring_webmvc := uses_spring_webmvc f;
     uses_spring_orm := uses_spring_orm f; uses_hibernate := uses_hibernate f;
     uses_struts := uses_struts f |}.
Definition with_webmvc (f : legacy_flags) : legacy_flags :=
  {| spring_version_from_deps := spring_version_from_deps f;
     uses_spring_security := uses_spring_security f; uses_spring_webmvc := true;
     uses_spring_orm := uses_spring_orm f; uses_hibernate := uses_hibernate f;
     uses_struts := uses_struts f |}.
Definition with_orm (f : legacy_flags) : legacy_flags :=
  {| spring_version_from_deps := spring_version_from_deps f;
     uses_spring_security := uses_spring_security f;
     uses_spring_webmvc := uses_spring_webmvc f;
     uses_spring_orm := true; uses_hibernate := uses_hibernate f;
     uses_struts := uses_struts f |}.
Definition with_hibernate (f : legacy_flags) : legacy_flags :=
  {| spring_version_from_deps := spring_version_from_deps f;
     uses_spring_security := uses_spring_security f;
     uses_spring_webmvc := uses_spring_webmvc f;
     uses_spring_orm := uses_spring_orm f; uses_hibernate := true;
     uses_struts := uses_struts f |}.
Definition with_struts (f : legacy_flags) : legacy_flags :=
  {| spring_version_from_deps := spring_version_from_deps f;
     uses_spring_security := uses_spring_security f;
     uses_spring_webmvc := uses_spring_webmvc f;
     uses_spring_orm := uses_spring_orm f; uses_hibernate := uses_hibernate f;
     uses_struts := true |}.
Definition with_version (v : option string) (f : legacy_flags) : legacy_flags :=
  {| spring_version_from_deps := v;
     uses_spring_security := uses_spring_security f;
     uses_spring_webmvc := uses_spring_webmvc f;
     uses_spring_orm := uses_spring_orm f; uses_hibernate := uses_hibernate f;
     uses_struts := uses_struts f |}.

(** [details[k] = version_text] under [if version_text:] *)
Definition set_if_text (k : string) (version_text : option string)
    (details : gmap string pyval) : gmap string pyval :=
  if text_truthy version_text then <[k := py_of_text version_text]> details
  else details.

(** The branches of lines 120-148, which are reached when the group is not
    [org.springframework]; [None] is the [TypeError] of [in] on [None],
    raised before anything is changed. *)
Definition legacy_other_dependency (group_text artifact_text version_text : option string)
    (st : gmap string pyval * legacy_flags)
  : option (gmap string pyval * legacy_flags) :=
  let '(details, flags) := st in
  is_hibernate ← and_in (text_is group_text "org.hibernate") "hibernate" artifact_text;
  if (is_hibernate : bool) then
    Some (set_if_text "hibernate_version" version_text details, with_hibernate flags)
  else
  is_struts ← (if text_is group_text "org.apache.struts" then Some true
               else in_text "struts" artifact_text);
  if (is_struts : bool) then
    Some (if text_truthy version_text
          then set_true "struts_security_risk"
                 (<["struts_version" := py_of_text version_text]> details)
          else details,
          with_struts flags)
  else
  is_log4j ← and_in (text_is group_text "log4j") "log4j" artifact_text;
  if (is_log4j : bool) then
    let details := set_true "uses_log4j" details in
    let details := <["log4j_version" := py_of_text version_text]> details in
    Some (if text_truthy version_text
             && Str.startswith (default "" version_text) "1."
          then set_true "log4j_security_risk" details else details,
          flags)
  else
  is_mysql ← and_in (text_is group_text "mysql") "mysql-connector" artifact_text;
  if (is_mysql : bool) then Some (set_true "database_mysql" details, flags) else
  is_oracle ← and_in (text_is group_text "oracle") "ojdbc" artifact_text;
  if (is_oracle : bool) then Some (set_true "database_oracle" details, flags) else
  is_mssql ← and_in (text_is group_text "com.microsoft.sqlserver") "mssql-jdbc"
                    artifact_text;
  if (is_mssql : bool) then Some (set_true "database_sqlserver" details, flags)
  else Some st.

(** The body of the dependency loop (lines 94-148). *)
Definition legacy_dependency (dep : ET.Element)
    (st : gmap string pyval * legacy_flags)
  : ctl unit * (gmap string pyval * legacy_flags) :=
  let '(details, flags) := st in
  match ET.find dep (ET.m "groupId"), ET.find dep (ET.m "artifactId") with
  | Some groupId, Some artifactId =>
      let group_text := ET.text groupId in
      let artifact_text := ET.text artifactId in
      let version_text :=
        match ET.find dep (ET.m "version") with
        | Some version => ET.text version
        | None => None
        end in
      if text_is group_text "org.springframework" then
        let st :=
          if negb (text_truthy (spring_version_from_deps flags))
             && text_truthy version_text
          then (<["spring_framework_version" := py_of_text version_text]> details,
                with_version version_text flags)
          else st in
        match in_text "spring-security" artifact_text with
        | None => (Exc, st)
        | Some true => (Fall, (fst st, with_security (snd st)))
        | Some false =>
            if Str.contains "spring-webmvc" (default "" artifact_text)
            then (Fall, (fst st, with_webmvc (snd st)))
            else if Str.contains "spring-orm" (default "" artifact_text)
            then (Fall, (fst st, with_orm (snd st)))
            else (Fall, st)
        end
      else no_return (fun _ => legacy_other_dependency group_text artifact_text version_text)
                     () st
  | _, _ => (Fall, st)
  end.

(** Lines 64-82: the version from [<properties>]; [Ret] is [break]. *)
Definition legacy_property (properties : ET.Element) (prop_name : string)
    (details : gmap string pyval) : ctl unit * gmap string pyval :=
  let spring_version_elem :=
    match ET.find properties (ET.m prop_name) with
    | Some e => Some e
    | None => ET.find properties prop_name
    end in
  match spring_version_elem with
  | Some e => (Ret (), <["spring_framework_version" := py_of_text (ET.text e)]> details)
  | None => (Fall, details)
  end.

(** [(\d+)\.(\d+)] *)
Definition re_major_minor : list Re.tok :=
  [Re.Open; Re.digits_plus; Re.Close; Re.Cls (Re.chr ".") Re.One;
   Re.Open; Re.digits_plus; Re.Close].

(** Lines 158-182: the risk assessment from the version. *)
Definition legacy_version_risk (details : gmap string pyval)
  : ctl unit * gmap string pyval :=
  match py_get details "spring_framework_version" with
  | PStr spring_version =>
      if negb (String.eqb spring_version "") then
        match Re.search re_major_minor spring_version with
        | Some version_match =>
            match PyInt.parse (Re.group 1 version_match),
                  PyInt.parse (Re.group 2 version_match) with
            | Some major_version, Some minor_version =>
                let details := <["spring_major_version" := PInt major_version]> details in
                let details := <["spring_minor_version" := PInt minor_version]> details in
                if (major_version =? 1) || (major_version =? 2) && (minor_version <? 5)
                then (Fall, set_true "is_very_legacy"
                              (<["security_priority" := PStr "critical"]> details))
                else if (major_version =? 2) || (major_version =? 3) && (minor_version <? 2)
                then (Fall, set_true "is_legacy"
                              (<["security_priority" := PStr "high"]> details))
                else if major_version =? 3
                then (Fall, set_true "is_old"
                              (<["security_priority" := PStr "medium"]> details))
                else (Fall, <["security_priority" := PStr "low"]> details)
            | _, _ => (Exc, details)
            end
        | None => (Fall, details)
        end
      else (Fall, details)
  | _ => (Fall, details)
  end.

(** The body of [try:] at lines 59-182, after [ET.parse] has succeeded. *)
Definition legacy_pom (root : ET.Element) (details : gmap string pyval)
  : ctl unit * gmap string pyval :=
  let details :=
    match ET.find root (ET.m "properties") with
    | Some properties =>
        snd (for_loop (legacy_property properties)
               ["spring.version"; "spring-framework.version"; "springframework.version";
                "spring.framework.version"; "org.springframework.version"] details)
    | None => details
    end in
  let '(c, details) :=
    match ET.find root (ET.m "dependencies") with
    | Some dependencies =>
        match for_loop legacy_dependency (ET.findall dependencies (ET.m "dependency"))
                (details,
                 {| spring_version_from_deps := None; uses_spring_security := false;
                    uses_spring_webmvc := false; uses_spring_orm := false;
                    uses_hibernate := false; uses_struts := false |}) with
        | (Fall, (details, flags)) =>
            let details := <["uses_spring_security" := PBool (uses_spring_security flags)]> details in
            let details := <["uses_spring_webmvc" := PBool (uses_spring_webmvc flags)]> details in
            let details := <["uses_spring_orm" := PBool (uses_spring_orm flags)]> details in
            let details := <["uses_hibernate" := PBool (uses_hibernate flags)]> details in
            let details := <["uses_struts" := PBool (uses_struts flags)]> details in
            (Fall, details)
        | (stop, (details, _)) => (stop, details)
        end
    | None => (Fall, details)
    end in
  match c with
  | Fall => legacy_version_risk details
  | stop => (stop, details)
  end.

(** [springframework], a quote, [:\s*], a quote, then the group [[0-9.]+]. *)
Definition re_gradle_spring : list Re.tok :=
  Re.lit "springframework"
  ++ [Re.Cls (Re.one_of quotes) Re.One; Re.Cls (Re.chr ":") Re.One; Re.spaces_star;
      Re.Cls (Re.one_of quotes) Re.One;
      Re.Open; Re.Cls (fun a => Str.is_digit a || Ascii.eqb a ".") Re.Plus; Re.Close].

(** Lines 207-226: the servlet version of [web.xml]. *)
Definition legacy_web_xml (w : World) (web_xml_path : string)
    (details : gmap string pyval) : gmap string pyval :=
  match ET_parse w web_xml_path with
  | Some root =>
      match ET.get root "version" with
      | Some version_attr =>
          if negb (String.eqb version_attr "") then
            let details := <["servlet_version" := PStr version_attr]> details in
            match py_float w version_attr with
            | Some servlet_version =>
                if lt_2_5 servlet_version then set_true "servlet_very_legacy" details
                else if lt_3_0 servlet_version then set_true "servlet_legacy" details
                else details
            | None => details
            end
          else details
      | None => details
      end
  | None => details
  end.

Definition check_java_legacy (w : World) (project_path : string) : checker_result :=
  let first_choice :=
    path_join_all project_path ["src"; "main"; "webapp"; "WEB-INF"] in
  let second_choice := path_join_all project_path ["WebContent"; "WEB-INF"] in
  let web_inf :=
    if os_path_isdir w first_choice then Some first_choice
    else if os_path_isdir w second_choice then Some second_choice
    else None in
  match web_inf with
  | None => Returned None ∅
  | Some web_inf_path =>
      let has_web_xml := os_path_exists w (path_join web_inf_path "web.xml") in
      let scan :=
        snd (for_loop legacy_directory (walk w (fun _ => true) project_path)
               {| scan_details := <["web_inf_path" := PStr web_inf_path]> ∅;
                  jsp_files_found := 0; spring_xml_present := false |}) in
      let details := scan_details scan in
      let details :=
        <["jsp_files_count" := PInt (Z.of_nat (jsp_files_found scan))]> details in
      let details :=
        <["spring_xml_found" := PBool (spring_xml_present scan)]> details in
      if has_web_xml || spring_xml_present scan then
        (* pom.xml *)
        let pom_path := path_join project_path "pom.xml" in
        let details :=
          if os_path_exists w pom_path then
            let details := set_true "is_maven" details in
            match ET_parse w pom_path with
            | Some root => snd (legacy_pom root details)
            | None => details
            end
          else details in
        (* build.gradle *)
        let gradle_path := path_join project_path "build.gradle" in
        let details :=
          if os_path_exists w gradle_path then
            let details := set_true "is_gradle" details in
            match read_text w gradle_path with
            | ReadOk content =>
                match Re.search re_gradle_spring content with
                | Some m => <["spring_framework_version" := PStr (Re.group 1 m)]> details
                | None => details
                end
            | _ => details
            end
          else details in
        (* web.xml *)
        let details :=
          if has_web_xml
          then legacy_web_xml w (path_join web_inf_path "web.xml") details
          else details in
        Returned (Some java_legacy_spring) details
      else Returned None ∅
  end.

(** *** [load_json_file] ([core/utils.py]) *)

(** The outer [None] is an exception that [load_json_file] does not catch
    ([UnicodeDecodeError]); the inner one is its result [None]. *)
Definition load_json_file (w : World) (file_path : string)
  : option (option Json.value) :=
  if negb (os_path_exists w file_path) then Some None
  else match json_load w file_path with
       | JsonOk v => Some (Some v)
       | JsonDecodeError => Some None
       | JsonIOError => Some None
       | JsonUnicodeError => None
       end.

(** [data] is truthy: [if data:] *)
Definition json_data_truthy (data : option Json.value) : bool :=
  match data with
  | Some v => Json.truthy v
  | None => false
  end.

(** [k in a or k in b] *)
Definition in_either (k : string) (a b : Json.value) : option bool :=
  in_a ← Json.contains k a;
  if (in_a : bool) then Some true else Json.contains k b.

(** [a.get(k) or b.get(k)] *)
Definition get_either (k : string) (a b : Json.value) : option Json.value :=
  x ← Json.get a k Json.JNull;
  if Json.truthy x then Some x else Json.get b k Json.JNull.

(** *** [check_vue] *)

(** Lines 448-459; [Ret] is [return "vue", details]. *)
Definition vue_package_json (w : World) (package_json_path : string)
    (details : gmap string pyval) : option (ctl (option category) * gmap string pyval) :=
  if os_path_exists w package_json_path then
    data ← load_json_file w package_json_path;
    if json_data_truthy data then
      let data := default Json.JNull data in
      dependencies ← Json.get data "dependencies" (Json.JObj []);
      dev_dependencies ← Json.get data "devDependencies" (Json.JObj []);
      has_vue ← in_either "vue" dependencies dev_dependencies;
      if (has_vue : bool) then
        vue_version ← get_either "vue" dependencies dev_dependencies;
        let details := <["vue_version" := py_of_json vue_version]> details in
        has_nuxt ← in_either "nuxt" dependencies dev_dependencies;
        Some (Ret (Some vue),
              if (has_nuxt : bool) then set_true "is_nuxt" details else details)
      else Some (Fall, details)
    else Some (Fall, details)
  else Some (Fall, details).

(** The walk of lines 467-473: is there a [.vue] file outside
    [node_modules] and [.git]? *)
Definition has_vue_file (w : World) (project_path : string) : bool :=
  existsb (fun t =>
             let '(root, _, files) := t in
             if Str.contains "node_modules" root || Str.contains ".git" root
             then false
             else existsb (fun file => Str.endswith file ".vue") files)
          (walk w (fun _ => true) project_path).

Definition check_vue (w : World) (project_path : string) : checker_result :=
  let package_json_path := path_join project_path "package.json" in
  let vue_config_js_path := path_join project_path "vue.config.js" in
  let vite_config_js_path := path_join project_path "vite.config.js" in
  let nuxt_config_js_path := path_join project_path "nuxt.config.js" in
  match vue_package_json w package_json_path ∅ with
  | None => Raised
  | Some (Ret r, details) => Returned r details
  | Some (_, details) =>
      if os_path_exists w vue_config_js_path
         || os_path_exists w vite_config_js_path
         || os_path_exists w nuxt_config_js_path
      then Returned (Some vue) details
      else if has_vue_file w project_path then Returned (Some vue) details
      else Returned None ∅
  end.

(** *** [check_angular] *)

(** Lines 378-391: what [angular.json] adds. *)
Definition angular_json (w : World) (angular_json_path : string)
    (details : gmap string pyval) : option (gmap string pyval) :=
  if os_path_exists w angular_json_path then
    data ← load_json_file w angular_json_path;
    if json_data_truthy data then
      let data := default Json.JNull data in
      projects ← Json.get data "projects" Json.JNull;
      match projects with
      | Json.JObj _ =>
          schema ← Json.get data "$schema" (Json.JStr "");
          match schema with
          | Json.JStr schema =>
              let details :=
                <["angular_cli_version" :=
                    PStr (Str.remove_all ".json" (List.last (Str.split "/" schema) ""))]>
                  details in
              Some (if Str.contains "15" schema || Str.contains "16" schema
                       || Str.contains "17" schema || Str.contains "18" schema
                    then set_true "angular_cli_modern" details
                    else details)
          | _ => None          (* [.split] on something that is not a string *)
          end
      | _ => Some details
      end
    else Some details
  else Some details.

(** [details[flag] = True] when the package is a dependency. *)
Definition flag_if_dependency (k flag : string) (dependencies dev_dependencies : Json.value)
    (details : gmap string pyval) : option (gmap string pyval) :=
  present ← in_either k dependencies dev_dependencies;
  Some (if (present : bool) then set_true flag details else details).

(** Lines 393-436; [Ret] is [return "angular", details]. *)
Definition angular_package_json (w : World) (package_json_path : string)
    (details : gmap string pyval) : option (ctl (option category) * gmap string pyval) :=
  if os_path_exists w package_json_path then
    data ← load_json_file w package_json_path;
    if json_data_truthy data then
      let data := default Json.JNull data in
      dependencies ← Json.get data "dependencies" (Json.JObj []);
      dev_dependencies ← Json.get data "devDependencies" (Json.JObj []);
      has_core ← in_either "@angular/core" dependencies dev_dependencies;
      if (has_core : bool) then
        angular_version ← get_either "@angular/core" dependencies dev_dependencies;
        let details := <["angular_core_version" := py_of_json angular_version]> details in
        version_text ← match angular_version with
                       | Json.JStr v => Some v
                       | _ => None          (* [re.search] on something else *)
                       end;
        details ←
          match Re.search re_number version_text with
          | Some version_match =>
              major_version ← PyInt.parse (Re.group 1 version_match);
              let details :=
                <["angular_major_version" := PInt major_version]> details in
              let details := if 14 <=? major_version
                             then set_true "supports_standalone" details else details in
              let details := if 16 <=? major_version
                             then set_true "supports_signals" details else details in
              Some (if 17 <=? major_version
                    then set_true "new_control_flow" details else details)
          | None => Some details
          end;
        details ← flag_if_dependency "@angular/material" "uses_angular_material"
                    dependencies dev_dependencies details;
        details ← flag_if_dependency "@ngrx/store" "uses_ngrx"
                    dependencies dev_dependencies details;
        details ← flag_if_dependency "@angular/pwa" "is_pwa"
                    dependencies dev_dependencies details;
        has_ssr ← (in_universal ← Json.contains "@nguniversal/express-engine" dependencies;
                   if (in_universal : bool) then Some true
                   else Json.contains "@angular/ssr" dependencies);
        Some (Ret (Some angular),
              if (has_ssr : bool) then set_true "has_ssr" details else details)
      else Some (Fall, details)
    else Some (Fall, details)
  else Some (Fall, details).

Definition check_angular (w : World) (project_path : string) : checker_result :=
  let angular_json_path := path_join project_path "angular.json" in
  let package_json_path := path_join project_path "package.json" in
  match angular_json w angular_json_path ∅ with
  | None => Raised
  | Some details =>
      match angular_package_json w package_json_path details with
      | None => Raised
      | Some (Ret r, details) => Returned r details
      | Some _ => Returned None ∅
      end
  end.

(** *** [detect_python_version] *)

(** The group [(\d+\.\d+\.?\d* )]: digits, a dot, digits, an optional dot,
    further digits. *)
Definition re_version : list Re.tok :=
  [Re.Open; Re.digits_plus; Re.Cls (Re.chr ".") Re.One; Re.digits_plus;
   Re.Cls (Re.chr ".") Re.Opt; Re.Cls Str.is_digit Re.Star; Re.Close].

(** [Python\s+] followed by the version group. *)
Definition re_python_banner : list Re.tok :=
  Re.lit "Python" ++ [Re.Cls Str.is_space Re.Plus] ++ re_version.

(** [\s*=\s*Q([^Q]+)Q] where [Q] is the class of the two quote
    characters. *)
Definition re_equals_quoted : list Re.tok :=
  [Re.spaces_star; Re.Cls (Re.chr "=") Re.One; Re.spaces_star;
   Re.Cls (Re.one_of quotes) Re.One;
   Re.Open; Re.Cls (Re.none_of quotes) Re.Plus; Re.Close;
   Re.Cls (Re.one_of quotes) Re.One].

Definition re_requires_python : list Re.tok :=
  Re.lit "requires-python" ++ re_equals_quoted.

(** [\[tool\.poetry\.dependencies\]], any run without an opening bracket,
    [python], then the quoted value ([re.DOTALL]). *)
Definition re_poetry_python : list Re.tok :=
  Re.lit "[tool.poetry.dependencies]" ++ [Re.Cls (Re.none_of "[") Re.Star]
  ++ Re.lit "python" ++ re_equals_quoted.

(** [\[requires\]], any run without an opening bracket, [python_version],
    then the quoted value ([re.DOTALL]). *)
Definition re_pipfile_python : list Re.tok :=
  Re.lit "[requires]" ++ [Re.Cls (Re.none_of "[") Re.Star]
  ++ Re.lit "python_version" ++ re_equals_quoted.

Definition re_python_requires : list Re.tok :=
  Re.lit "python_requires" ++ re_equals_quoted.

(** One recorded call of [subprocess.run]: the command and its [timeout]. *)
Definition call : Type := list string * Z.

(** [subprocess.run(argv, ..., timeout=5, shell=False)], recorded. *)
Definition run_with_timeout_5 (w : World) (argv : list string)
  : run_result * call :=
  (subprocess_run w argv 5, (argv, 5)).

(** [version_parts = full_version.split('.')] and the two [int(...)]. *)
Definition set_version_parts (full_version : string)
    (details : gmap string pyval) : ctl unit * gmap string pyval :=
  match Str.split "." full_version with
  | [] => (Fall, details)
  | major :: rest =>
      match PyInt.parse major with
      | None => (Exc, details)
      | Some major_version =>
          let details := <["python_major_version" := PInt major_version]> details in
          match rest with
          | [] => (Fall, details)
          | minor :: _ =>
              match PyInt.parse minor with
              | None => (Exc, details)
              | Some minor_version =>
                  (Fall, <["python_minor_version" := PInt minor_version]> details)
              end
          end
      end
  end.

(** [... ; return details] after the version parts. *)
Definition then_return (r : ctl unit * gmap string pyval)
  : ctl unit * gmap string pyval :=
  match r with
  | (Fall, details) => (Ret (), details)
  | other => other
  end.

(** [result.stdout.strip() or result.stderr.strip()] *)
Definition version_output (stdout stderr : string) : string :=
  if negb (String.eqb (Str.strip stdout) "") then Str.strip stdout
  else Str.strip stderr.

(** The body of the loop over [venv_paths] (lines 511-561). *)
Definition venv_attempt (w : World) (project_path venv_name : string)
    (st : gmap string pyval * list call)
  : ctl unit * (gmap string pyval * list call) :=
  let '(details, calls) := st in
  let venv_dir := path_join project_path venv_name in
  let venv_python := path_join_all venv_dir ["bin"; "python"] in
  if os_path_exists w venv_python then
    let '(result, c) := run_with_timeout_5 w [venv_python; "--version"] in
    let calls := (calls ++ [c])%list in
    match result with
    | Completed returncode stdout stderr =>
        if returncode =? 0 then
          match Re.search re_python_banner (version_output stdout stderr) with
          | Some version_match =>
              let full_version := Re.group 1 version_match in
              let details := <["python_version" := PStr full_version]> details in
              let details :=
                <["python_path" := PStr (os_path_abspath w venv_python)]> details in
              let details := <["python_source" := PStr "venv"]> details in
              let details := <["is_venv" := PBool true]> details in
              let details :=
                <["venv_path" := PStr (os_path_abspath w venv_dir)]> details in
              let '(c, details) :=
                caught (then_return (set_version_parts full_version details)) in
              (c, (details, calls))
          | None => (Fall, (details, calls))
          end
        else (Fall, (details, calls))
    | TimeoutExpired => (Fall, (details, calls))     (* [except subprocess.TimeoutExpired] *)
    | _ => (Fall, (details, calls))                  (* [except Exception] *)
    end
  else (Fall, (details, calls)).

(** Lines 566-592: [.python-version]. *)
Definition pyenv_strategy (w : World) (project_path : string)
    (details : gmap string pyval) : ctl unit * gmap string pyval :=
  let python_version_file := path_join project_path ".python-version" in
  if os_path_exists w python_version_file then
    caught match read_text w python_version_file with
    | ReadOk content =>
        let version_content := Str.strip content in
        match Re.search_at_start re_version version_content with
        | Some version_match =>
            let full_version := Re.group 1 version_match in
            let details := <["python_version" := PStr full_version]> details in
            let details := <["python_source" := PStr "pyenv"]> details in
            let details := <["is_venv" := PBool false]> details in
            then_return (set_version_parts full_version details)
        | None => (Fall, details)
        end
    | _ => (Exc, details)
    end
  else (Fall, details).

(** The common end of the [pyproject.toml] and [setup.py] strategies. *)
Definition from_version_spec (source version_spec : string)
    (details : gmap string pyval) : ctl unit * gmap string pyval :=
  match Re.search re_version version_spec with
  | Some version_match =>
      let full_version := Re.group 1 version_match in
      let details := <["python_version_required" := PStr version_spec]> details in
      let details := <["python_version" := PStr full_version]> details in
      let details := <["python_source" := PStr source]> details in
      let details := <["is_venv" := PBool false]> details in
      then_return (set_version_parts full_version details)
  | None => (Fall, details)
  end.

(** Lines 595-631: [pyproject.toml]. *)
Definition pyproject_strategy (w : World) (project_path : string)
    (details : gmap string pyval) : ctl unit * gmap string pyval :=
  let pyproject_path := path_join project_path "pyproject.toml" in
  if os_path_exists w pyproject_path then
    caught match read_text w pyproject_path with
    | ReadOk content =>
        let requires_match :=
          match Re.search re_requires_python content with
          | Some m => Some m
          | None => Re.search re_poetry_python content
          end in
        match requires_match with
        | Some m => from_version_spec "pyproject" (Re.group 1 m) details
        | None => (Fall, details)
        end
    | _ => (Exc, details)
    end
  else (Fall, details).

(** Lines 634-661: [Pipfile]. *)
Definition pipfile_strategy (w : World) (project_path : string)
    (details : gmap string pyval) : ctl unit * gmap string pyval :=
  let pipfile_path := path_join project_path "Pipfile" in
  if os_path_exists w pipfile_path then
    caught match read_text w pipfile_path with
    | ReadOk content =>
        match Re.search re_pipfile_python content with
        | Some requires_section =>
            let full_version := Re.group 1 requires_section in
            let details := <["python_version" := PStr full_version]> details in
            let details := <["python_source" := PStr "pipfile"]> details in
            let details := <["is_venv" := PBool false]> details in
            then_return (set_version_parts full_version details)
        | None => (Fall, details)
        end
    | _ => (Exc, details)
    end
  else (Fall, details).

(** Lines 664-695: [setup.py]. *)
Definition setup_py_strategy (w : World) (project_path : string)
    (details : gmap string pyval) : ctl unit * gmap string pyval :=
  let setup_py_path := path_join project_path "setup.py" in
  if os_path_exists w setup_py_path then
    caught match read_text w setup_py_path with
    | ReadOk content =>
        match Re.search re_python_requires content with
        | Some m => from_version_spec "setup.py" (Re.group 1 m) details
        | None => (Fall, details)
        end
    | _ => (Exc, details)
    end
  else (Fall, details).

(** The four file strategies in order; each returns as soon as it has a
    version. *)
Definition file_strategies (w : World) (project_path : string)
    (details : gmap string pyval) : ctl unit * gmap string pyval :=
  match pyenv_strategy w project_path details with
  | (Fall, details) =>
      match pyproject_strategy w project_path details with
      | (Fall, details) =>
          match pipfile_strategy w project_path details with
          | (Fall, details) => setup_py_strategy w project_path details
          | stop => stop
          end
      | stop => stop
      end
  | stop => stop
  end.

(** The body of the loop over [python_commands] (lines 700-757). *)
Definition system_attempt (w : World) (python_cmd : string)
    (st : gmap string pyval * list call)
  : ctl unit * (gmap string pyval * list call) :=
  let '(details, calls) := st in
  let '(result, c) := run_with_timeout_5 w [python_cmd; "--version"] in
  let calls := (calls ++ [c])%list in
  match result with
  | Completed returncode stdout stderr =>
      if returncode =? 0 then
        match Re.search re_python_banner (version_output stdout stderr) with
        | Some version_match =>
            let full_version := Re.group 1 version_match in
            let which_cmd := "which" in
            let '(path_result, c) := run_with_timeout_5 w [which_cmd; python_cmd] in
            let calls := (calls ++ [c])%list in
            match path_result with
            | Completed path_returncode path_stdout _ =>
                let python_path :=
                  if path_returncode =? 0
                  then Some (Str.strip (hd "" (Str.split (ascii_of_nat 10)
                                                 (Str.strip path_stdout))))
                  else None in
                let details := <["python_version" := PStr full_version]> details in
                let details :=
                  <["python_path" :=
                      PStr (match python_path with
                            | Some q => if negb (String.eqb q "") then q else python_cmd
                            | None => python_cmd
                            end)]> details in
                let details := <["python_source" := PStr "system"]> details in
                let details := <["is_venv" := PBool false]> details in
                let '(c, details) :=
                  caught (then_return (set_version_parts full_version details)) in
                (c, (details, calls))
            | _ => (Fall, (details, calls))      (* caught by the [except] clauses *)
            end
        | None => (Fall, (details, calls))
        end
      else (Fall, (details, calls))
  | TimeoutExpired => (Fall, (details, calls))      (* [except subprocess.TimeoutExpired] *)
  | FileNotFoundError => (Fall, (details, calls))   (* [except FileNotFoundError] *)
  | OtherRunError => (Fall, (details, calls))       (* [except Exception] *)
  end.

(** [detect_python_version(project_path)]: the dictionary it returns and
    the calls of [subprocess.run] it made, in order. *)
Definition detect_python_version (w : World) (project_path : string)
  : gmap string pyval * list call :=
  let venv_paths := [".venv"; "venv"; "env"; ".env"] in
  match for_loop (venv_attempt w project_path) venv_paths (∅, []) with
  | (Fall, (details, calls)) =>
      match file_strategies w project_path details with
      | (Fall, details) =>
          let python_commands := ["python3"; "python"] in
          snd (for_loop (system_attempt w) python_commands (details, calls))
      | (_, details) => (details, calls)
      end
  | (_, st) => st
  end.

(** *** [check_python] *)

(** [SECRET_KEY\s*=\s*Q[\w\-]+Q], [Q] the class of the two quotes. *)
Definition re_secret_key : list Re.tok :=
  Re.lit "SECRET_KEY"
  ++ [Re.spaces_star; Re.Cls (Re.chr "=") Re.One; Re.spaces_star;
      Re.Cls (Re.one_of quotes) Re.One;
      Re.Cls (fun a => Str.is_word a || Ascii.eqb a "-") Re.Plus;
      Re.Cls (Re.one_of quotes) Re.One].

(** [name==([0-9.]+)] *)
Definition re_pinned (name : string) : list Re.tok :=
  Re.lit name ++ Re.lit "=="
  ++ [Re.Open; Re.Cls (fun a => Str.is_digit a || Ascii.eqb a ".") Re.Plus; Re.Close].

(** [django\s*=\s*D([^D]+)D] with [re.IGNORECASE], [D] the double quote. *)
Definition re_django_dependency : list Re.tok :=
  Re.lit_i "django"
  ++ [Re.spaces_star; Re.Cls (Re.chr "=") Re.One; Re.spaces_star;
      Re.Cls (Re.one_of Str.dquote) Re.One;
      Re.Open; Re.Cls (Re.none_of Str.dquote) Re.Plus; Re.Close;
      Re.Cls (Re.one_of Str.dquote) Re.One].

(** The inner loop of lines 787-791, with its [break]. *)
Fixpoint count_py_files (files : list string) (python_files_found : nat) : nat :=
  match files with
  | [] => python_files_found
  | file :: rest =>
      if Str.endswith file ".py" then
        let python_files_found := S python_files_found in
        if (3 <=? python_files_found)%nat then python_files_found
        else count_py_files rest python_files_found
      else count_py_files rest python_files_found
  end.

(** The outer loop of lines 783-793, with its [break]. *)
Fixpoint count_py_walk (triples : list (string * list string * list string))
    (python_files_found : nat) : nat :=
  match triples with
  | [] => python_files_found
  | (_, _, files) :: rest =>
      let python_files_found := count_py_files files python_files_found in
      if (3 <=? python_files_found)%nat then python_files_found
      else count_py_walk rest python_files_found
  end.

Definition skipped_dirs : list string :=
  ["venv"; ".venv"; "env"; "__pycache__"; ".git"; "node_modules"].

(** Lines 819-840: what [settings.py] adds. *)
Definition django_settings (content : string)
    (details : gmap string pyval) : gmap string pyval :=
  let details :=
    if Str.contains "DEBUG = True" content
    then set_true "debug_enabled" details else details in
  let details :=
    if Str.contains "sqlite3" content then set_true "database_sqlite" details
    else if Str.contains "postgresql" content || Str.contains "psycopg" content
    then set_true "database_postgresql" details
    else if Str.contains "mysql" content then set_true "database_mysql" details
    else details in
  match Re.search re_secret_key content with
  | Some _ => set_true "hardcoded_secret_key" details
  | None => details
  end.

(** [lst.append(x)] guarded by [if x not in lst]. *)
Definition append_new (x : string) (l : list string) : list string :=
  if Str.mem x l then l else (l ++ [x])%list.

(** The body of the loop over [requirements] (lines 889-904): the state is
    [details] and [risky_packages]. *)
Definition requirement_step (req : string)
    (st : gmap string pyval * list string) : gmap string pyval * list string :=
  let '(details, risky_packages) := st in
  let req_lower := Str.lower req in
  if Str.contains "django==" req_lower then
    match Re.search (re_pinned "django") req_lower with
    | Some m => (<["django_version" := PStr (Re.group 1 m)]> details, risky_packages)
    | None => st
    end
  else if Str.contains "flask==" req_lower then
    match Re.search (re_pinned "flask") req_lower with
    | Some m => (<["flask_version" := PStr (Re.group 1 m)]> details, risky_packages)
    | None => st
    end
  else if Str.contains "fastapi==" req_lower then
    match Re.search (re_pinned "fastapi") req_lower with
    | Some m => (<["fastapi_version" := PStr (Re.group 1 m)]> details, risky_packages)
    | None => st
    end
  else if existsb (fun risky => Str.contains risky req_lower)
                  ["pycrypto"; "md5"; "pickle"]
  then (details, (risky_packages ++ [req])%list)
  else st.

(** Lines 877-908: what [requirements.txt] adds. *)
Definition requirements_txt (content : string)
    (details : gmap string pyval) : gmap string pyval :=
  let requirements :=
    List.filter (fun line => negb (String.eqb line "") && negb (Str.startswith line "#"))
                (map Str.strip (Str.split (ascii_of_nat 10) content)) in
  let details := <["requirements" := PList requirements]> details in
  let '(details, risky_packages) :=
    fold_left (fun st req => requirement_step req st) requirements (details, []) in
  match risky_packages with
  | [] => details
  | _ => <["risky_packages" := PList risky_packages]> details
  end.

(** [details[f"has_{name.split('.')[0]}"] = True] when the file exists. *)
Definition mark_if_exists (w : World) (project_path file : string)
    (details : gmap string pyval) : gmap string pyval :=
  if os_path_exists w (path_join project_path file)
  then set_true ("has_" +:+ hd "" (Str.split "." file)) details
  else details.

(** Lines 982-989. *)
Definition python_security_priority (details : gmap string pyval) : string :=
  if get_truthy details "debug_enabled" then "high"
  else if get_truthy details "hardcoded_secret_key"
          || get_truthy details "risky_packages" then "medium"
  else "low".

(** Lines 801-980, once the project counts as a Python project. *)
Definition python_findings (w : World) (project_path : string)
    (found_indicators : list string) : gmap string pyval :=
  let details : gmap string pyval :=
    <["python_indicators" := PList found_indicators]> ∅ in
  let frameworks_detected : list string := [] in
  (* Django *)
  let '(details, frameworks_detected) :=
    if Str.mem "manage.py" found_indicators then
      let frameworks_detected := (frameworks_detected ++ ["Django"])%list in
      let details := set_true "is_django" details in
      match List.find (fun t => Str.mem "settings.py" (snd t))
                      (walk w (fun _ => true) project_path) with
      | Some (root, _, _) =>
          let settings := path_join root "settings.py" in
          let details := <["django_settings_path" := PStr settings]> details in
          match read_text w settings with
          | ReadOk content => (django_settings content details, frameworks_detected)
          | _ => (details, frameworks_detected)
          end
      | None => (details, frameworks_detected)
      end
    else (details, frameworks_detected) in
  (* Flask *)
  let '(details, frameworks_detected) :=
    if Str.mem "app.py" found_indicators then
      match read_text w (path_join project_path "app.py") with
      | ReadOk content =>
          if Str.contains "from flask import" content
             || Str.contains "import flask" content then
            let frameworks_detected := (frameworks_detected ++ ["Flask"])%list in
            let details := set_true "is_flask" details in
            if Str.contains "debug=True" content
               || Str.contains "app.debug = True" content
            then (set_true "debug_enabled" details, frameworks_detected)
            else (details, frameworks_detected)
          else (details, frameworks_detected)
      | _ => (details, frameworks_detected)
      end
    else (details, frameworks_detected) in
  (* FastAPI *)
  let '(details, frameworks_detected) :=
    if Str.mem "main.py" found_indicators then
      match read_text w (path_join project_path "main.py") with
      | ReadOk content =>
          if Str.contains "from fastapi import" content
             || Str.contains "import fastapi" content
          then (set_true "is_fastapi" details, (frameworks_detected ++ ["FastAPI"])%list)
          else (details, frameworks_detected)
      | _ => (details, frameworks_detected)
      end
    else (details, frameworks_detected) in
  (* requirements.txt *)
  let details :=
    if Str.mem "requirements.txt" found_indicators then
      match read_text w (path_join project_path "requirements.txt") with
      | ReadOk content => requirements_txt content details
      | _ => details
      end
    else details in
  (* pyproject.toml *)
  let '(details, frameworks_detected) :=
    if Str.mem "pyproject.toml" found_indicators then
      match read_text w (path_join project_path "pyproject.toml") with
      | ReadOk content =>
          let details := set_true "is_poetry" details in
          match Re.search re_django_dependency content with
          | Some django_match =>
              let details :=
                <["django_version" := PStr (Re.group 1 django_match)]> details in
              if Str.mem "Django" frameworks_detected
              then (details, frameworks_detected)
              else (set_true "is_django" details,
                    (frameworks_detected ++ ["Django"])%list)
          | None => (details, frameworks_detected)
          end
      | _ => (details, frameworks_detected)
      end
    else (details, frameworks_detected) in
  (* Pipfile *)
  let '(details, frameworks_detected) :=
    if Str.mem "Pipfile" found_indicators then
      match read_text w (path_join project_path "Pipfile") with
      | ReadOk content =>
          let details := set_true "is_pipenv" details in
          if Str.contains "django" (Str.lower content) then
            if Str.mem "Django" frameworks_detected
            then (details, frameworks_detected)
            else (set_true "is_django" details,
                  (frameworks_detected ++ ["Django"])%list)
          else (details, frameworks_detected)
      | _ => (details, frameworks_detected)
      end
    else (details, frameworks_detected) in
  (* server, test and container configuration *)
  let details :=
    fold_left (fun d f => mark_if_exists w project_path f d)
              ["wsgi.py"; "asgi.py"] details in
  let details :=
    fold_left (fun d f => mark_if_exists w project_path f d)
              ["pytest.ini"; "tox.ini"; "conftest.py"] details in
  let details :=
    if os_path_exists w (path_join project_path "Dockerfile")
    then set_true "has_docker" details else details in
  let details := <["frameworks_detected" := PList frameworks_detected]> details in
  (* the interpreter *)
  let python_version_info := fst (detect_python_version w project_path) in
  if decide (python_version_info = ∅) then details
  else py_update details python_version_info.

(** Lines 801-991: the findings, then the security priority. *)
Definition python_details (w : World) (project_path : string)
    (found_indicators : list string) : gmap string pyval :=
  let details := python_findings w project_path found_indicators in
  let security_priority := python_security_priority details in
  <["security_priority" := PStr security_priority]> details.

Definition check_python (w : World) (project_path : string) : checker_result :=
  let indicators :=
    ["requirements.txt"; "setup.py"; "pyproject.toml"; "Pipfile"; "poetry.lock";
     "manage.py"; "app.py"; "main.py"] in
  let found_indicators :=
    List.filter (fun indicator => os_path_exists w (path_join project_path indicator))
                indicators in
  let is_python :=
    match found_indicators with
    | [] =>
        let python_files_found :=
          count_py_walk
            (walk w (fun d => negb (Str.mem d skipped_dirs)) project_path) 0 in
        negb (python_files_found <? 3)%nat
    | _ => true
    end in
  if is_python
  then Returned (Some python) (python_details w project_path found_indicators)
  else Returned None ∅.

(** *** [analyze_project] *)

(** A probe function, with its [__name__]. *)
Record checker := {
  checker_name : string;
  run_checker : World → string → checker_result;
}.

Definition PROJECT_CHECKERS : list checker :=
  [ {| checker_name := "check_spring_boot"; run_checker := check_spring_boot |};
    {| checker_name := "check_java_legacy"; run_checker := check_java_legacy |};
    {| checker_name := "check_angular"; run_checker := check_angular |};
    {| checker_name := "check_vue"; run_checker := check_vue |};
    {| checker_name := "check_python"; run_checker := check_python |};
    {| checker_name := "check_gitlab_ci"; run_checker := check_gitlab_ci |} ].

(** The loop of lines 1021-1036 over the checkers still to call.  The
    result is [detected_project_type], [detected_technologies] and the
    names of the checkers that were called, in order. *)
Fixpoint run_checkers (checkers : list checker) (w : World) (project_path : string)
    (detected_technologies : gmap string pyval)
  : option category * gmap string pyval * list string :=
  match checkers with
  | [] => (None, detected_technologies, [])
  | checker_func :: rest =>
      let next :=
        let '(t, d, called) := run_checkers rest w project_path detected_technologies in
        (t, d, checker_name checker_func :: called) in
      match run_checker checker_func w project_path with
      | Returned (Some project_type) tech_details =>
          if py_truthy (PStr (category_name project_type))
          then (Some project_type,
                py_update detected_technologies tech_details,
                [checker_name checker_func])           (* [break] *)
          else next
      | Returned None _ => next
      | Raised => next                                  (* [except Exception] *)
      end
  end.

(** [analyze_project] over a list of checkers, with the names of the
    checkers it called. *)
Definition analyze_with (checkers : list checker) (w : World) (project_path : string)
  : (option category * gmap string pyval) * list string :=
  if negb (os_path_isdir w project_path) then ((None, ∅), [])
  else
    let '(detected_project_type, detected_technologies, called) :=
      run_checkers checkers w project_path ∅ in
    match detected_project_type with
    | Some _ => ((detected_project_type, detected_technologies), called)
    | None => ((None, ∅), called)
    end.

Definition analyze_project_traced : World → string →
    (option category * gmap string pyval) * list string :=
  analyze_with PROJECT_CHECKERS.

(** [analyze_project(project_path)] *)
Definition analyze_project (w : World) (project_path : string)
  : option category * gmap string pyval :=
  fst (analyze_project_traced w project_path).

(** The call of a probe gave no category: it raised, or it returned
    [None]. *)
Definition no_category (r : checker_result) : Prop :=
  match r with
  | Returned (Some _) _ => False
  | _ => True
  end.

End Analyzer.

(** ** [core/utils.py] *)

Module Utils.

(** The dictionary with the keys [frontmatter] and [content]. *)
Record mdc := {
  frontmatter : option string;
  content : string;
}.

(** The pattern of line 107, under [re.DOTALL | re.MULTILINE]: white
    space, three dashes, white space, end of line, a newline; the group
    [(.*?)]; a newline, start of line, white space, three dashes, white
    space, end of line, an optional newline; the group of the rest. *)
Definition frontmatter_pattern : list Re.tok :=
  [Re.Bol; Re.spaces_star] ++ Re.lit "---"
  ++ [Re.spaces_star; Re.Eol; Re.Cls (Re.chr Re.nl) Re.One;
      Re.Open; Re.Cls Re.any Re.LazyStar; Re.Close;
      Re.Cls (Re.chr Re.nl) Re.One; Re.Bol; Re.spaces_star]
  ++ Re.lit "---"
  ++ [Re.spaces_star; Re.Eol; Re.Cls (Re.chr Re.nl) Re.Opt;
      Re.Open; Re.Cls Re.any Re.Star; Re.Close].

(** Lines 106-122. *)
Definition parse_mdc (text : string) : mdc :=
  match Re.search_at_start frontmatter_pattern text with
  | Some m => {| frontmatter := Some (Str.strip (Re.group 1 m));
                 content := Str.strip (Re.group 2 m) |}
  | None => {| frontmatter := None; content := Str.strip text |}
  end.

(** [load_mdc_file(file_path)].  The outer [None] is an exception that the
    function does not catch (only [IOError] is caught); the inner one is
    its result [None]. *)
Definition load_mdc_file (w : World) (file_path : string) : option (option mdc) :=
  if negb (os_path_exists w file_path) then Some None
  else match read_text w file_path with
       | ReadOk text => Some (Some (parse_mdc text))
       | ReadIOError => Some None
       | ReadDecodeError => None
       end.

(** Is [q] the directory [p] or one above it? *)
Definition at_or_above (q p : string) : bool :=
  String.eqb q p
  || negb (String.eqb q "")
     && Str.startswith p (if Str.endswith q "/" then q else q +:+ "/").

(** The world once [p] and the directories above it exist. *)
Definition with_directory (w : World) (p : string) : World := {|
  os_path_isdir q := at_or_above q p || os_path_isdir w q;
  os_path_exists q := at_or_above q p || os_path_exists w q;
  os_path_abspath := os_path_abspath w;
  os_path_relpath := os_path_relpath w;
  os_getcwd := os_getcwd w;
  environ_CURSOR_WORKSPACE := environ_CURSOR_WORKSPACE w;
  core_dir := core_dir w;
  read_text := read_text w;
  ET_parse := ET_parse w;
  json_load := json_load w;
  listing := listing w;
  subprocess_run := subprocess_run w;
  py_float := py_float w;
  makedirs_fault := makedirs_fault w;
  open_w_fault := open_w_fault w;
  write_fault := write_fault w;
|}.

(** The world once the file [p] holds [text]. *)
Definition with_file (w : World) (p text : string) : World := {|
  os_path_isdir := os_path_isdir w;
  os_path_exists q := String.eqb q p || os_path_exists w q;
  os_path_abspath := os_path_abspath w;
  os_path_relpath := os_path_relpath w;
  os_getcwd := os_getcwd w;
  environ_CURSOR_WORKSPACE := environ_CURSOR_WORKSPACE w;
  core_dir := core_dir w;
  read_text q := if String.eqb q p then ReadOk text else read_text w q;
  ET_parse := ET_parse w;
  json_load := json_load w;
  listing := listing w;
  subprocess_run := subprocess_run w;
  py_float := py_float w;
  makedirs_fault := makedirs_fault w;
  open_w_fault := open_w_fault w;
  write_fault := write_fault w;
|}.

(** Does the name hold a null character?  The calls that hand such a name
    to the operating system raise [ValueError: embedded null byte]. *)
Definition has_null (p : string) : bool :=
  existsb (Ascii.eqb Ascii.zero) (list_ascii_of_string p).

(** The part of [p] before its first null character. *)
Fixpoint before_null (p : string) : string :=
  match p with
  | EmptyString => EmptyString
  | String c p' => if Ascii.eqb c Ascii.zero then EmptyString else String c (before_null p')
  end.

(** [os.makedirs(p, exist_ok=True)]: the exception it raises, if any, and
    the world after the call.  The empty name gives [FileNotFoundError], an
    [OSError].  A name with a null character gives [ValueError] at the
    [mkdir] of the first component that holds one, when the directories
    above that component have been made. *)
Definition makedirs (w : World) (p : string) : option write_error * World :=
  if String.eqb p "" then (Some RaisesOSError, w)
  else match makedirs_fault w p with
       | Some (e, made) => (Some e, fold_left with_directory made w)
       | None =>
           if has_null p then
             let above := path_dirname (before_null p) in
             (Some RaisesOtherError,
              if String.eqb above "" then w else with_directory w above)
           else (None, with_directory w p)
       end.

(** [open(p, 'w', encoding='utf-8')]: the exception it raises, if any. *)
Definition open_w (w : World) (p : string) : option write_error :=
  if has_null p then Some RaisesOtherError else open_w_fault w p.

(** What [save_mdc_file] writes for a dictionary with the key
    [frontmatter] (lines 132-138): the arguments of the calls of [f.write],
    in order. *)
Definition mdc_pieces (data : mdc) : list string :=
  match frontmatter data with
  | Some fm =>
      if negb (String.eqb fm "")
      then ["---" +:+ Str.newline; fm;
            Str.newline +:+ "---" +:+ Str.newline +:+ Str.newline; content data]
      else [content data]
  | None => [content data]
  end.

(** The text that these calls hand to the file object, which buffers it. *)
Definition mdc_text (data : mdc) : string :=
  String.concat "" (mdc_pieces data).

(** [save_mdc_file(file_path, data)]: its result and the world after it.
    The result [None] is an exception that [except IOError] does not
    catch.  [open(file_path, 'w')] empties the file before anything is
    written; the text goes through the buffer of the file object, so a
    fault of the disk shows at some [write], at a flush or at [close],
    inside the [try] in every case, and the file then holds the part of the
    text that had reached it. *)
Definition save_mdc_file (w : World) (file_path : string) (data : mdc)
  : option bool * World :=
  match makedirs w (path_dirname file_path) with
  | (Some RaisesOSError, w) => (Some false, w)
  | (Some RaisesOtherError, w) => (None, w)
  | (None, w) =>
      match open_w w file_path with
      | Some RaisesOSError => (Some false, w)
      | Some RaisesOtherError => (None, w)
      | None =>
          match write_fault w file_path with
          | Some n =>
              (Some false, with_file w file_path (String.substring 0 n (mdc_text data)))
          | None => (Some true, with_file w file_path (mdc_text data))
          end
      end
  end.

End Utils.

(** ** [core/rule_generator.py] *)

(** The text blocks that the adapters append.  A constructor stands for one
    literal of the source (the line of its [append] is given); its
    arguments are the values that the f-string interpolates, already turned
    into text. *)
Inductive version_line :=
| VersionLine (python_version : string)        (* 713 *)
| PathLine (python_path : string)              (* 715 *)
| SourceLine (source_label : string)           (* 727 *)
| VenvLine (venv_path : string)                (* 730 *)
| ObsoleteLine                                 (* 734 *)
| LimitedSupportLine (python_minor : string)   (* 736 *)
| ModernLine (python_minor : string).          (* 738 *)

Inductive block :=
(* _adapt_rules_for_angular *)
| AngularDetected (major_version : string)      (* 50 *)
| AngularStandalone                             (* 54 *)
| AngularSignals                                (* 64 *)
| AngularControlFlow                            (* 76 *)
| AngularMaterial                               (* 89 *)
| AngularNgrx                                   (* 97 *)
| AngularPwa                                    (* 109 *)
| AngularSsr                                    (* 119 *)
(* _adapt_rules_for_spring_boot *)
| BootHeader (full_version : string)            (* 143 *)
| BootLegacyWarning                             (* 149 *)
| BootStableNote                                (* 154 *)
| BootModernNote                                (* 158 *)
| BootHeaderMajor (major_version : string)      (* 163 *)
| BootFeatures (joined : string)                (* 188 *)
| BootPriority (level : string)                 (* 203 *)
| BootLegacyRules                               (* 210 *)
| BootModernRules                               (* 230 *)
| BootLatestRules                               (* 242 *)
| BootSecurity                                  (* 259 *)
| BootActuator                                  (* 277 *)
| BootDataJpa                                   (* 295 *)
| BootH2                                        (* 307 *)
| BootWebflux                                   (* 321 *)
| BootCloud                                     (* 333 *)
| BootHighPriority                              (* 349 *)
(* _adapt_rules_for_java_legacy_spring *)
| LegacyHeader (spring_version : string)        (* 374 *)
| LegacyVeryLegacyAlert                         (* 380 *)
| LegacyLegacyWarning                           (* 385 *)
| LegacyOldNote                                 (* 390 *)
| LegacyModernNote                              (* 395 *)
| LegacyHeaderMajor (major_version : string)    (* 399 *)
| LegacyFeatures (joined : string)              (* 430 *)
| LegacyPriority (level : string)               (* 446 *)
| LegacyServlet (servlet_version : string)      (* 453 *)
| LegacyServletVeryLegacy                       (* 457 *)
| LegacyServletLegacy                           (* 460 *)
| LegacySpring1                                 (* 466 *)
| LegacySpring2                                 (* 486 *)
| LegacySpring3                                 (* 504 *)
| LegacySecurity                                (* 519 *)
| LegacyStruts (struts_version : string)        (* 540 *)
| LegacyHibernate (hibernate_version : string)  (* 561 *)
| LegacyLog4j (log4j_version : string)          (* 583 *)
| LegacyJsp (jsp_count : string)                (* 603 *)
| LegacyDatabases (joined : string)             (* 634 *)
| LegacyMaven                                   (* 649 *)
| LegacyGradle                                  (* 659 *)
| LegacyCritical                                (* 670 *)
(* _adapt_rules_for_python *)
| PythonHeader                                  (* 703 *)
| PythonVersionInfo (lines : list version_line) (* 713-740 *)
| PythonFrameworks (joined : string)            (* 743 *)
| PythonIndicators (joined : string)            (* 748 *)
| PythonPriority (level : string)               (* 761 *)
| PythonDjango (django_version : string)        (* 767 *)
| PythonDjangoDebug                             (* 791 *)
| PythonDjangoSecretKey                         (* 799 *)
| PythonSqlite                                  (* 808 *)
| PythonPostgresql                              (* 815 *)
| PythonMysql                                   (* 822 *)
| PythonFlask (flask_version : string)          (* 832 *)
| PythonFlaskDebug                              (* 854 *)
| PythonFastapi (fastapi_version : string)      (* 866 *)
| PythonPoetry                                  (* 889 *)
| PythonPipenv                                  (* 897 *)
| PythonRisky (joined : string)                 (* 911 *)
| PythonWsgi                                    (* 923 *)
| PythonAsgi                                    (* 931 *)
| PythonPytest                                  (* 940 *)
| PythonTox                                     (* 950 *)
| PythonDocker.                                 (* 959 *)

(** A line printed by the rule generator under [verbose].  The line of
    [_adapt_rules] shows [list(self.detected_tech.keys())], the keys in the
    order in which they were inserted; a map does not keep that order, so
    the line is recorded with the set of the keys it shows. *)
Inductive printed :=
| NoTemplateFound (project_type : string)                   (* 31 *)
| CouldNotLoadTemplate (template_path : string)             (* 38 *)
| LoadedTemplate (template_path : string)                   (* 41 *)
| AdaptedRules (technology : string) (keys : gset string)   (* 984, 989, 994, 999 *)
| ProjectTypeRequired.                                      (* 1025 *)

Module RuleGenerator.

Definition PROJECT_TYPES_TEMPLATES : gmap string string :=
  <["java_legacy_spring" := "java_legacy_spring.mdc"]>
  (<["springboot" := "spring_boot.mdc"]>
  (<["angular" := "angular.mdc"]>
  (<["vue" := "vue.mdc"]>
  (<["python" := "python.mdc"]>
  (<["gitlab_ci" := "gitlab_ci.mdc"]> ∅))))).

(** [TEMPLATES_DIR] *)
Definition TEMPLATES_DIR (w : World) : string :=
  path_join_all (core_dir w) [".."; "templates"].

(** The object built by [RuleSet.__init__]. *)
Record RuleSet := {
  project_type : string;
  detected_tech : gmap string pyval;
  custom_rules_data : option string;
  verbose : bool;
}.

(** [RuleSet(project_type, detected_tech, custom_rules_data, verbose)]:
    a falsy [custom_rules_data] becomes the empty dictionary, shown here
    as [None]. *)
Definition new_RuleSet (project_type : string) (detected_tech : gmap string pyval)
    (custom_rules_data : option string) (verbose : bool) : RuleSet :=
  {| project_type := project_type;
     detected_tech := detected_tech;
     custom_rules_data :=
       match custom_rules_data with
       | Some c => if negb (String.eqb c "") then Some c else None
       | None => None
       end;
     verbose := verbose |}.

(** [print(line)] under [if self.verbose:] *)
Definition say (verbose : bool) (line : printed) : list printed :=
  if verbose then [line] else [].

Definition empty_template : Utils.mdc :=
  {| Utils.frontmatter := None; Utils.content := "" |}.

(** [_load_base_template]: [None] is an exception escaping from
    [load_mdc_file]; otherwise the template and the lines printed. *)
Definition _load_base_template (w : World) (self : RuleSet)
  : option (Utils.mdc * list printed) :=
  match PROJECT_TYPES_TEMPLATES !! project_type self with
  | None => Some (empty_template, say (verbose self) (NoTemplateFound (project_type self)))
  | Some template_filename =>
      if String.eqb template_filename "" then
        Some (empty_template, say (verbose self) (NoTemplateFound (project_type self)))
      else
        let template_path := path_join (TEMPLATES_DIR w) template_filename in
        base_rules_data ← Utils.load_mdc_file w template_path;
        match base_rules_data with
        | None =>
            Some (empty_template, say (verbose self) (CouldNotLoadTemplate template_path))
        | Some data => Some (data, say (verbose self) (LoadedTemplate template_path))
        end
  end.

Section Adapters.

(** The text of each block: the literals of the source, with the
    interpolated values in place. *)
Variable text : block → string.

(** [adaptations.append(b)] under [if self.detected_tech.get(k):] *)
Definition when_set (tech : gmap string pyval) (k : string) (b : block) : list block :=
  if get_truthy tech k then [b] else [].

(** [s] is appended to the list under [if self.detected_tech.get(k):] *)
Definition name_when_set (tech : gmap string pyval) (k name : string) : list string :=
  if get_truthy tech k then [name] else [].

(** Lines 129-132, 359-362, 684-687, 969-972. *)
Definition add_adaptations (content : string) (adaptations : list block) : string :=
  match adaptations with
  | [] => content
  | _ => content +:+ Str.newline +:+ Str.join Str.newline (map text adaptations)
  end.

(** The lookup of [security_priority] in the table of priority texts:
    the block to append, if any.  [None] is the [TypeError] of a key
    that cannot be hashed. *)
Definition priority_block (levels : list string) (mk : string → block)
    (tech : gmap string pyval) : option (list block) :=
  let security_priority := py_get tech "security_priority" in
  if py_truthy security_priority then
    if py_hashable security_priority then
      match security_priority with
      | PStr level => Some (if Str.mem level levels then [mk level] else [])
      | _ => Some []
      end
    else None
  else Some [].

(** [_adapt_rules_for_angular] *)
Definition _adapt_rules_for_angular (tech : gmap string pyval) (content : string)
  : option string :=
  let major_version := py_get tech "angular_major_version" in
  let adaptations :=
    (if py_truthy major_version then
       [AngularDetected (py_str major_version)]
       ++ when_set tech "supports_standalone" AngularStandalone
       ++ when_set tech "supports_signals" AngularSignals
       ++ when_set tech "new_control_flow" AngularControlFlow
     else [])
    ++ when_set tech "uses_angular_material" AngularMaterial
    ++ when_set tech "uses_ngrx" AngularNgrx
    ++ when_set tech "is_pwa" AngularPwa
    ++ when_set tech "has_ssr" AngularSsr in
  Some (add_adaptations content adaptations).

(** [_adapt_rules_for_spring_boot] *)
Definition _adapt_rules_for_spring_boot (tech : gmap string pyval) (content : string)
  : option string :=
  let major_version := py_get tech "spring_boot_major_version" in
  let full_version := py_get tech "spring_boot_version" in
  header ←
    (if py_truthy full_version then
       note ← (if py_eq_int major_version 1 then Some [BootLegacyWarning]
               else if py_eq_int major_version 2 then Some [BootStableNote]
               else modern ← py_ge_int major_version 3;
                    Some (if (modern : bool) then [BootModernNote] else []));
       Some (BootHeader (py_str full_version) :: note)
     else if py_truthy major_version
     then Some [BootHeaderMajor (py_str major_version)]
     else Some []);
  let detected_features :=
    name_when_set tech "uses_spring_security" "Spring Security"
    ++ name_when_set tech "uses_spring_data_jpa" "Spring Data JPA"
    ++ name_when_set tech "uses_actuator" "Spring Boot Actuator"
    ++ name_when_set tech "uses_webflux" "Spring WebFlux"
    ++ name_when_set tech "uses_spring_cloud" "Spring Cloud"
    ++ name_when_set tech "database_h2" "H2 Database"
    ++ name_when_set tech "database_mysql" "MySQL"
    ++ name_when_set tech "database_postgresql" "PostgreSQL" in
  let features :=
    match detected_features with
    | [] => []
    | _ => [BootFeatures (Str.join ", " detected_features)]
    end in
  priority ← priority_block ["high"; "medium"; "low"] BootPriority tech;
  let by_version :=
    if py_truthy major_version then
      if get_truthy tech "is_legacy" then [BootLegacyRules]
      else if get_truthy tech "is_modern" then [BootModernRules]
      else if get_truthy tech "is_latest" then [BootLatestRules]
      else []
    else [] in
  let adaptations :=
    header ++ features ++ priority ++ by_version
    ++ when_set tech "uses_spring_security" BootSecurity
    ++ when_set tech "uses_actuator" BootActuator
    ++ when_set tech "uses_spring_data_jpa" BootDataJpa
    ++ (if get_truthy tech "database_h2" && get_truthy tech "h2_console_risk"
        then [BootH2] else [])
    ++ when_set tech "uses_webflux" BootWebflux
    ++ when_set tech "uses_spring_cloud" BootCloud
    ++ (if py_eq_str (py_get tech "security_priority") "high"
        then [BootHighPriority] else []) in
  Some (add_adaptations content adaptations).

(** [jsp_count > 0] for [jsp_count = self.detected_tech.get("jsp_files_count", 0)] *)
Definition has_jsp (tech : gmap string pyval) : option bool :=
  py_gt_int (py_get_default tech "jsp_files_count" (PInt 0)) 0.

(** [_adapt_rules_for_java_legacy_spring] *)
Definition _adapt_rules_for_java_legacy_spring (tech : gmap string pyval)
    (content : string) : option string :=
  let spring_version := py_get tech "spring_framework_version" in
  let major_version := py_get tech "spring_major_version" in
  let header :=
    if py_truthy spring_version then
      [LegacyHeader (py_str spring_version);
       if get_truthy tech "is_very_legacy" then LegacyVeryLegacyAlert
       else if get_truthy tech "is_legacy" then LegacyLegacyWarning
       else if get_truthy tech "is_old" then LegacyOldNote
       else LegacyModernNote]
    else if py_truthy major_version
    then [LegacyHeaderMajor (py_str major_version)]
    else [] in
  jsp ← has_jsp tech;
  let jsp_count := py_get_default tech "jsp_files_count" (PInt 0) in
  let detected_features :=
    name_when_set tech "uses_spring_security" "Spring Security"
    ++ name_when_set tech "uses_spring_webmvc" "Spring WebMVC"
    ++ name_when_set tech "uses_spring_orm" "Spring ORM"
    ++ name_when_set tech "uses_hibernate" "Hibernate ORM"
    ++ name_when_set tech "uses_struts" "⚠️ Apache Struts"
    ++ name_when_set tech "uses_log4j" "⚠️ Log4j"
    ++ name_when_set tech "database_mysql" "MySQL"
    ++ name_when_set tech "database_oracle" "Oracle DB"
    ++ name_when_set tech "database_sqlserver" "SQL Server"
    ++ (if (jsp : bool) then ["JSP files (" +:+ py_str jsp_count +:+ ")"] else []) in
  let features :=
    match detected_features with
    | [] => []
    | _ => [LegacyFeatures (Str.join ", " detected_features)]
    end in
  priority ← priority_block ["critical"; "high"; "medium"; "low"] LegacyPriority tech;
  let servlet_version := py_get tech "servlet_version" in
  let servlet :=
    if py_truthy servlet_version then
      LegacyServlet (py_str servlet_version)
      :: (if get_truthy tech "servlet_very_legacy" then [LegacyServletVeryLegacy]
          else if get_truthy tech "servlet_legacy" then [LegacyServletLegacy]
          else [])
    else [] in
  let by_version :=
    if py_truthy major_version then
      if py_eq_int major_version 1 then [LegacySpring1]
      else if py_eq_int major_version 2 then [LegacySpring2]
      else if py_eq_int major_version 3 then [LegacySpring3]
      else []
    else [] in
  let databases :=
    name_when_set tech "database_mysql" "MySQL"
    ++ name_when_set tech "database_oracle" "Oracle"
    ++ name_when_set tech "database_sqlserver" "SQL Server" in
  let adaptations :=
    header ++ features ++ priority ++ servlet ++ by_version
    ++ when_set tech "uses_spring_security" LegacySecurity
    ++ when_set tech "uses_struts"
         (LegacyStruts (py_str (py_get_default tech "struts_version" (PStr ""))))
    ++ when_set tech "uses_hibernate"
         (LegacyHibernate (py_str (py_get_default tech "hibernate_version" (PStr ""))))
    ++ (if get_truthy tech "uses_log4j" && get_truthy tech "log4j_security_risk"
        then [LegacyLog4j (py_str (py_get_default tech "log4j_version" (PStr "")))]
        else [])
    ++ (if (jsp : bool) then [LegacyJsp (py_str jsp_count)] else [])
    ++ match databases with
       | [] => []
       | _ => [LegacyDatabases (Str.join ", " databases)]
       end
    ++ when_set tech "is_maven" LegacyMaven
    ++ when_set tech "is_gradle" LegacyGradle
    ++ (if py_eq_str (py_get tech "security_priority") "critical"
        then [LegacyCritical] else []) in
  Some (add_adaptations content adaptations).

(** [source_labels.get(python_source, python_source)], as text *)
Definition source_label (python_source : pyval) : option string :=
  if py_hashable python_source then
    Some (if py_eq_str python_source "venv" then "entorno virtual"
          else if py_eq_str python_source "pyenv" then "archivo .python-version (pyenv)"
          else if py_eq_str python_source "pyproject" then "pyproject.toml"
          else if py_eq_str python_source "pipfile" then "Pipfile"
          else if py_eq_str python_source "setup.py" then "setup.py"
          else if py_eq_str python_source "system" then "intérprete del sistema"
          else py_str python_source)
  else None.

(** [', '.join(v)] under [if v:], as a block *)
Definition joined_block (mk : string → block) (v : pyval) : option (list block) :=
  if py_truthy v then joined ← py_join v; Some [mk joined] else Some [].

(** Lines 709-740: the block about the interpreter. *)
Definition python_version_info (tech : gmap string pyval) : option (list block) :=
  let python_version := py_get tech "python_version" in
  let python_path := py_get tech "python_path" in
  let python_source := py_get tech "python_source" in
  let is_venv := py_get_default tech "is_venv" (PBool false) in
  let venv_path := py_get tech "venv_path" in
  if py_truthy python_version then
    let python_major := py_get_default tech "python_major_version" (PStr "") in
    let python_minor := py_get_default tech "python_minor_version" (PStr "") in
    label ← source_label python_source;
    note ←
      (if py_eq_int python_major 2 then Some [ObsoleteLine]
       else
         limited ← (if py_eq_int python_major 3 && py_truthy python_minor
                    then py_lt_int python_minor 8 else Some false);
         if (limited : bool) then Some [LimitedSupportLine (py_str python_minor)]
         else
           modern ← (if py_eq_int python_major 3 && py_truthy python_minor
                     then py_ge_int python_minor 11 else Some false);
           Some (if (modern : bool) then [ModernLine (py_str python_minor)] else []));
    Some [PythonVersionInfo
            ([VersionLine (py_str python_version)]
             ++ (if py_truthy python_path then [PathLine (py_str python_path)] else [])
             ++ [SourceLine label]
             ++ (if py_truthy is_venv && py_truthy venv_path
                 then [VenvLine (py_str venv_path)] else [])
             ++ note)]
  else Some [].

(** [_adapt_rules_for_python] *)
Definition _adapt_rules_for_python (tech : gmap string pyval) (content : string)
  : option string :=
  let frameworks := py_get_default tech "frameworks_detected" (PList []) in
  let indicators := py_get_default tech "python_indicators" (PList []) in
  let python_version := py_get tech "python_version" in
  header ←
    (if py_truthy frameworks || py_truthy indicators || py_truthy python_version then
       version_info ← python_version_info tech;
       frameworks_block ← joined_block PythonFrameworks frameworks;
       indicators_block ← joined_block PythonIndicators indicators;
       Some ([PythonHeader] ++ version_info ++ frameworks_block ++ indicators_block)
     else Some []);
  priority ← priority_block ["high"; "medium"; "low"] PythonPriority tech;
  let django :=
    if get_truthy tech "is_django" then
      [PythonDjango
         (py_str (py_get_default tech "django_version" (PStr "versión no detectada")))]
      ++ when_set tech "debug_enabled" PythonDjangoDebug
      ++ when_set tech "hardcoded_secret_key" PythonDjangoSecretKey
      ++ (if get_truthy tech "database_sqlite" then [PythonSqlite]
          else if get_truthy tech "database_postgresql" then [PythonPostgresql]
          else if get_truthy tech "database_mysql" then [PythonMysql]
          else [])
    else [] in
  let flask :=
    if get_truthy tech "is_flask" then
      [PythonFlask
         (py_str (py_get_default tech "flask_version" (PStr "versión no detectada")))]
      ++ when_set tech "debug_enabled" PythonFlaskDebug
    else [] in
  let fastapi :=
    when_set tech "is_fastapi"
      (PythonFastapi
         (py_str (py_get_default tech "fastapi_version" (PStr "versión no detectada")))) in
  risky ←
    (if py_truthy (py_get_default tech "requirements" (PList []))
     then joined_block PythonRisky (py_get_default tech "risky_packages" (PList []))
     else Some []);
  let adaptations :=
    header ++ priority ++ django ++ flask ++ fastapi
    ++ when_set tech "is_poetry" PythonPoetry
    ++ when_set tech "is_pipenv" PythonPipenv
    ++ risky
    ++ when_set tech "has_wsgi" PythonWsgi
    ++ when_set tech "has_asgi" PythonAsgi
    ++ when_set tech "has_pytest" PythonPytest
    ++ when_set tech "has_tox" PythonTox
    ++ when_set tech "has_docker" PythonDocker in
  Some (add_adaptations content adaptations).

(** [_adapt_rules]: [None] is an exception escaping from an adapter, which
    is called before the line is printed; otherwise the adapted content and
    the lines printed. *)
Definition _adapt_rules (self : RuleSet) (base_rules_content : string)
  : option (string * list printed) :=
  let tech := detected_tech self in
  if decide (tech = ∅) then Some (base_rules_content, [])
  else
    let keys : gset string := dom tech in
    let adapted_content := base_rules_content in
    if String.eqb (project_type self) "angular" then
      adapted_content ← _adapt_rules_for_angular tech adapted_content;
      Some (adapted_content, say (verbose self) (AdaptedRules "Angular" keys))
    else if String.eqb (project_type self) "springboot" then
      adapted_content ← _adapt_rules_for_spring_boot tech adapted_content;
      Some (adapted_content, say (verbose self) (AdaptedRules "Spring Boot" keys))
    else if String.eqb (project_type self) "java_legacy_spring" then
      adapted_content ← _adapt_rules_for_java_legacy_spring tech adapted_content;
      Some (adapted_content, say (verbose self) (AdaptedRules "Java Legacy Spring" keys))
    else if String.eqb (project_type self) "python" then
      adapted_content ← _adapt_rules_for_python tech adapted_content;
      Some (adapted_content, say (verbose self) (AdaptedRules "Python" keys))
    else Some (adapted_content, []).

(** [RuleSet.generate]: the dictionary of rules and the lines printed;
    [None] is an escaping exception. *)
Definition generate (w : World) (self : RuleSet) : option (Utils.mdc * list printed) :=
  '(base_rules_data, printed1) ← _load_base_template w self;
  '(adapted_content, printed2) ← _adapt_rules self (Utils.content base_rules_data);
  (* TODO: Add custom rules merging logic here if needed *)
  Some ({| Utils.frontmatter := Utils.frontmatter base_rules_data;
           Utils.content := adapted_content |},
        printed1 ++ printed2).

(** [generate_rules(project_type, detected_tech, custom_rules_data,
    verbose)]: the outer [None] is an escaping exception, the inner one
    the result [None]. *)
Definition generate_rules (w : World) (project_type : option string)
    (detected_tech : gmap string pyval) (custom_rules_data : option string)
    (verbose : bool) : option (option Utils.mdc * list printed) :=
  match project_type with
  | Some t =>
      if negb (String.eqb t "") then
        '(rules, out) ← generate w (new_RuleSet t detected_tech custom_rules_data verbose);
        Some (Some rules, out)
      else Some (None, say verbose ProjectTypeRequired)
  | None => Some (None, say verbose ProjectTypeRequired)
  end.

End Adapters.

End RuleGenerator.

(** ** [mcp_tools.py] *)

(** The dictionaries that the tools return, one constructor per [return]
    statement (the lines are those of the first occurrence). *)
Inductive response :=
| InvalidPath (error : string) (project_path : option string)            (* 66, 129, 264 *)
| NotDetected (error : string) (project_path : string)
              (suggestion : option string)                               (* 76, 145, 273 *)
| Analyzed (project_path project_type : string)
           (detected_technologies : gmap string pyval) (message : string) (* 83 *)
| CustomRulesNotFound (error project_path : string)                      (* 165 *)
| NoRulesGenerated (error project_path project_type : string)            (* 183 *)
| Generated (project_path project_type output_file : string)
            (technologies_detected : list string) (message : string)
            (file_size : nat) (relative_path : string)                   (* 217 *)
| WriteFailed (error project_path project_type : string)                 (* 230 *)
| Detected (project_path project_type : string)
           (details raw_details : gmap string pyval)                     (* 335 *)
| Unexpected (error_prefix : string) (project_path : option string).     (* 92, 238, 343:
                                        the error is the prefix followed by [str(e)] *)

(** The key [success] of a response. *)
Definition success (r : response) : bool :=
  match r with
  | Analyzed _ _ _ _ | Generated _ _ _ _ _ _ _ | Detected _ _ _ _ => true
  | _ => false
  end.

(** The key [error] of a response that is not a success; for [Unexpected]
    this is the start of it. *)
Definition error_text (r : response) : option string :=
  match r with
  | InvalidPath e _ | NotDetected e _ _ | CustomRulesNotFound e _
  | NoRulesGenerated e _ _ | WriteFailed e _ _ | Unexpected e _ => Some e
  | _ => None
  end.

Module Tools.

(** [get_project_path_from_context(provided_path)] *)
Definition get_project_path_from_context (w : World) (provided_path : option string)
  : string :=
  match provided_path with
  | Some p =>
      if negb (String.eqb p "") then os_path_abspath w p
      else match environ_CURSOR_WORKSPACE w with
           | Some ws => if negb (String.eqb ws "") then ws else os_getcwd w
           | None => os_getcwd w
           end
  | None =>
      match environ_CURSOR_WORKSPACE w with
      | Some ws => if negb (String.eqb ws "") then ws else os_getcwd w
      | None => os_getcwd w
      end
  end.

Definition invalid_path_error (path : string) : string :=
  "La ruta '" +:+ path +:+ "' no existe o no es un directorio".

(** [analyze_project_tool(project_path, verbose)] *)
Definition analyze_project_tool (w : World) (project_path : option string) : response :=
  let path := get_project_path_from_context w project_path in
  if negb (os_path_isdir w path) then
    InvalidPath (invalid_path_error path) (Some path)
  else
    match Analyzer.analyze_project w path with
    | (Some project_type, detected_tech) =>
        Analyzed path (category_name project_type) detected_tech
                 ("✅ Proyecto detectado: " +:+ category_name project_type)
    | (None, _) =>
        NotDetected "No se pudo detectar el tipo de proyecto automáticamente" path
          (Some "Intenta especificar el tipo manualmente o verifica que el proyecto tenga archivos de configuración reconocibles")
    end.

(** [details[new_key] = detected_tech[key]] under [if detected_tech.get(key):] *)
Definition copy_if_set (tech : gmap string pyval) (key new_key : string)
    (details : gmap string pyval) : gmap string pyval :=
  if get_truthy tech key then <[new_key := py_get tech key]> details else details.

(** [details[new_key] = True] under [if detected_tech.get(key):] *)
Definition flag_if_set (tech : gmap string pyval) (key new_key : string)
    (details : gmap string pyval) : gmap string pyval :=
  if get_truthy tech key then <[new_key := PBool true]> details else details.

(** Lines 286-333: [tech_info["details"]]. *)
Definition technology_details (project_type : category) (tech : gmap string pyval)
  : gmap string pyval :=
  match project_type with
  | springboot =>
      flag_if_set tech "uses_actuator" "actuator"
        (flag_if_set tech "uses_spring_data_jpa" "spring_data_jpa"
           (flag_if_set tech "uses_spring_security" "spring_security"
              (copy_if_set tech "spring_boot_version" "version" ∅)))
  | angular =>
      flag_if_set tech "supports_signals" "signals_api"
        (flag_if_set tech "supports_standalone" "standalone_components"
           (copy_if_set tech "angular_major_version" "version" ∅))
  | python =>
      flag_if_set tech "is_fastapi" "fastapi"
        (flag_if_set tech "is_flask" "flask"
           (flag_if_set tech "is_django" "django"
              (copy_if_set tech "frameworks_detected" "frameworks"
                 (copy_if_set tech "venv_path" "venv_path"
                    (copy_if_set tech "is_venv" "is_venv"
                       (copy_if_set tech "python_source" "python_source"
                          (copy_if_set tech "python_path" "python_path"
                             (copy_if_set tech "python_version" "python_version" ∅))))))))
  | java_legacy_spring =>
      copy_if_set tech "jsp_files_count" "jsp_files"
        (copy_if_set tech "security_priority" "security_priority"
           (copy_if_set tech "spring_framework_version" "spring_version" ∅))
  | _ => ∅
  end.

(** [detect_technology_tool(project_path)] *)
Definition detect_technology_tool (w : World) (project_path : option string) : response :=
  let path := get_project_path_from_context w project_path in
  if negb (os_path_isdir w path) then
    InvalidPath (invalid_path_error path) None
  else
    match Analyzer.analyze_project w path with
    | (Some project_type, detected_tech) =>
        Detected path (category_name project_type)
                 (technology_details project_type detected_tech) detected_tech
    | (None, _) =>
        NotDetected "No se detectaron tecnologías reconocidas" path None
    end.

(** [tech_summary.extend(v)]: the items added; [None] is [TypeError]. *)
Definition py_items (v : pyval) : option (list string) :=
  match v with
  | PList l => Some l
  | PStr s => Some (map (fun c => String c "") (list_ascii_of_string s))
  | _ => None
  end.

(** Lines 206-215: [tech_summary]. *)
Definition tech_summary (detected_tech : gmap string pyval) : option (list string) :=
  frameworks ← (if get_truthy detected_tech "frameworks_detected"
                then py_items (py_get detected_tech "frameworks_detected")
                else Some []);
  Some ((if get_truthy detected_tech "spring_boot_version"
         then ["Spring Boot " +:+ py_str (py_get detected_tech "spring_boot_version")]
         else [])
        ++ (if get_truthy detected_tech "angular_major_version"
            then ["Angular " +:+ py_str (py_get detected_tech "angular_major_version")]
            else [])
        ++ frameworks
        ++ (if get_truthy detected_tech "spring_framework_version"
            then ["Spring Framework "
                  +:+ py_str (py_get detected_tech "spring_framework_version")]
            else [])).

Section Generate.

Variable text : block → string.

Definition generation_error : string := "Error durante la generación de reglas: ".

(** Steps 2 to 5 of [generate_rules_tool] (lines 155-235), once the
    project type is known.  The result is the response and the world
    after the call. *)
Definition generate_for_type (w : World) (path : string) (detected_type : string)
    (detected_tech : gmap string pyval) (output_filename : string)
    (custom_rules_path : option string) (verbose : bool) : response * World :=
  let unexpected w := (Unexpected generation_error (Some path), w) in
  (* Paso 2: the outer [None] is [return], the middle one an exception *)
  let custom_step : response + option (option string) :=
    match custom_rules_path with
    | Some custom =>
        if negb (String.eqb custom "") then
          if os_path_exists w custom then
            match Utils.load_mdc_file w custom with
            | None => inr None
            | Some None => inr (Some None)
            | Some (Some custom_rules_data) =>
                inr (Some (Some (Utils.content custom_rules_data)))
            end
          else inl (CustomRulesNotFound
                      ("Archivo de reglas personalizadas no encontrado: " +:+ custom)
                      path)
        else inr (Some None)
    | None => inr (Some None)
    end in
  match custom_step with
  | inl r => (r, w)
  | inr None => unexpected w
  | inr (Some custom_rules) =>
      (* Paso 3 *)
      match RuleGenerator.generate_rules text w (Some detected_type) detected_tech
              custom_rules verbose with
      | None => unexpected w
      | Some (None, _) =>
          (NoRulesGenerated
             ("No se pudieron generar reglas para el tipo '" +:+ detected_type +:+ "'")
             path detected_type, w)
      | Some (Some final_rules, _) =>
          (* Paso 4 *)
          let output_dir := path_join_all path [".cursor"; "rules"] in
          match Utils.makedirs w output_dir with
          | (Some _, w) => unexpected w
          | (None, w) =>
              let output_filename :=
                if Str.endswith output_filename ".mdc" then output_filename
                else output_filename +:+ ".mdc" in
              let output_path := path_join output_dir output_filename in
              (* Paso 5 *)
              match Utils.save_mdc_file w output_path final_rules with
              | (None, w) => unexpected w
              | (Some true, w) =>
                  match tech_summary detected_tech, read_text w output_path with
                  | Some summary, ReadOk written =>
                      (Generated path detected_type output_path
                         (match summary with
                          | [] => ["Análisis básico completado"]
                          | _ => summary
                          end)
                         ("✅ Reglas generadas exitosamente en: " +:+ output_path)
                         (String.length written)
                         (os_path_relpath w output_path path), w)
                  | _, _ => unexpected w
                  end
              | (Some false, w) =>
                  (WriteFailed ("No se pudo escribir el archivo en: " +:+ output_path)
                               path detected_type, w)
              end
          end
      end
  end.

(** [generate_rules_tool(project_path, output_filename,
    custom_rules_path, verbose, project_type)] *)
Definition generate_rules_tool (w : World) (project_path : option string)
    (output_filename : string) (custom_rules_path : option string)
    (verbose : bool) (project_type : option string) : response * World :=
  let path := get_project_path_from_context w project_path in
  if negb (os_path_isdir w path) then
    (InvalidPath (invalid_path_error path) (Some path), w)
  else
    (* Paso 1 *)
    let manual :=
      match project_type with
      | Some t => if negb (String.eqb t "") then Some t else None
      | None => None
      end in
    match manual with
    | Some detected_type =>
        generate_for_type w path detected_type ∅ output_filename
                          custom_rules_path verbose
    | None =>
        match Analyzer.analyze_project w path with
        | (Some detected_type, detected_tech) =>
            generate_for_type w path (category_name detected_type) detected_tech
                              output_filename custom_rules_path verbose
        | (None, _) =>
            (NotDetected "No se pudo detectar el tipo de proyecto" path
               (Some "Especifica el tipo de proyecto manualmente con el parámetro 'project_type'"),
             w)
        end
    end.

End Generate.

End Tools.

(** ** Notions used in the statements *)

(** The call of a probe on a project gives no category. *)
Definition gives_no_category (w : World) (project_path : string)
    (c : Analyzer.checker) : Prop :=
  Analyzer.no_category (Analyzer.run_checker c w project_path).

(** The digits at the start of [s]. *)
Fixpoint leading_digits (s : string) : string :=
  match s with
  | String c s' => if Str.is_digit c then String c (leading_digits s') else ""
  | EmptyString => ""
  end.

(** The first run of digits of [s], if [s] has a digit. *)
Fixpoint first_number (s : string) : option string :=
  match s with
  | EmptyString => None
  | String c s' => if Str.is_digit c then Some (leading_digits s) else first_number s'
  end.

(** The value of a string of digits. *)
Fixpoint digits_value (s : string) (acc : Z) : Z :=
  match s with
  | String c s' => digits_value s' (10 * acc + PyInt.digit_val c)
  | EmptyString => acc
  end.

(** The first run of digits of [v] is not longer than [int] accepts. *)
Definition number_within_limit (v : string) : Prop :=
  ∀ g, first_number v = Some g → PyInt.count_digits g <= PyInt.max_str_digits.

(** The keys that the version of the parent decides. *)
Definition version_keys : list string :=
  ["spring_boot_version"; "spring_boot_major_version"; "is_legacy"; "is_modern";
   "is_latest"; "requires_java17"; "security_priority"].

(** A dependency whose [artifactId] element, if it has one, has text. *)
Definition artifact_has_text (dep : ET.Element) : Prop :=
  ∀ a, ET.find dep (ET.m "artifactId") = Some a → is_Some (ET.text a).

(** Every recorded call of [subprocess.run] has [timeout=5]. *)
Definition timeout_is_5 (calls : list Analyzer.call) : Prop :=
  Forall (fun c => snd c = 5) calls.

(** Step 2 of [generate_rules_tool] neither returns nor raises. *)
Definition custom_rules_readable (w : World) (custom_rules_path : option string) : Prop :=
  match custom_rules_path with
  | Some c => c = "" ∨ (os_path_exists w c = true ∧ Utils.load_mdc_file w c ≠ None)
  | None => True
  end.

(** The name of the output file, with its extension (lines 195-198). *)
Definition output_path_of (path output_filename : string) : string :=
  path_join (path_join_all path [".cursor"; "rules"])
            (if Str.endswith output_filename ".mdc" then output_filename
             else output_filename +:+ ".mdc").

(** ** Sample worlds *)

Module Samples.

Definition assoc {A} (l : list (string * A)) (k : string) : option A :=
  option_map snd (List.find (fun kv => String.eqb (fst kv) k) l).

(** What a sample world contains; every path is absolute. *)
Record layout := {
  dirs : list string;
  files : list (string * string);
  xml : list (string * ET.Element);
  json : list (string * Json.value);
  trees : list (string * dirtree);
  procs : list (list string * run_result);
}.

Definition world_of (l : layout) : World := {|
  os_path_isdir p := Str.mem p (dirs l);
  os_path_exists p :=
    Str.mem p (dirs l) || Str.mem p (map fst (files l))
    || Str.mem p (map fst (xml l)) || Str.mem p (map fst (json l));
  os_path_abspath p := p;
  os_path_relpath p start :=
    if Str.startswith p (start +:+ "/")
    then Re.drop (String.length start + 1) p else p;
  os_getcwd := "/";
  environ_CURSOR_WORKSPACE := None;
  core_dir := "/app/core";
  read_text p := match assoc (files l) p with
                 | Some c => ReadOk c
                 | None => ReadIOError
                 end;
  ET_parse p := assoc (xml l) p;
  json_load p := match assoc (json l) p with
                 | Some v => JsonOk v
                 | None => JsonIOError
                 end;
  listing p := assoc (trees l) p;
  subprocess_run argv _ :=
    match List.find (fun kv => if decide (fst kv = argv) then true else false) (procs l) with
    | Some kv => snd kv
    | None => FileNotFoundError
    end;
  py_float _ := None;
  makedirs_fault _ := None;
  open_w_fault _ := None;
  write_fault _ := None;
|}.

Definition leaf (name text : string) : ET.Element :=
  ET.Elem (ET.m name) (Some text) [] [].
Definition node (name : string) (children : list ET.Element) : ET.Element :=
  ET.Elem (ET.m name) None [] children.

(** A [pom.xml] whose parent is [spring-boot-starter-parent] at [version],
    with the given dependencies. *)
Definition boot_pom (version : string) (deps : list ET.Element) : ET.Element :=
  node "project"
    [ node "parent" [ leaf "groupId" "org.springframework.boot";
                      leaf "artifactId" "spring-boot-starter-parent";
                      leaf "version" version ];
      node "dependencies" deps ].

Definition boot_project (version : string) (deps : list ET.Element) : World :=
  world_of {| dirs := ["/p"]; files := []; xml := [("/p/pom.xml", boot_pom version deps)];
              json := []; trees := [("/p", Dir ["pom.xml"] [])]; procs := [] |}.

(** A dependency [mysql] whose [artifactId] element is empty. *)
Definition mysql_without_artifact : ET.Element :=
  node "dependency" [ leaf "groupId" "mysql"; node "artifactId" [] ].

(** A directory that holds a pipeline description and nothing else. *)
Definition gitlab_only : World :=
  world_of {| dirs := ["/p"]; files := [("/p/.gitlab-ci.yml", "stages: [build]")];
              xml := []; json := [];
              trees := [("/p", Dir [".gitlab-ci.yml"] [])]; procs := [] |}.

(** A Flask application next to a [package.json] that holds a JSON array:
    [data.get] raises [AttributeError] in [check_angular] and in
    [check_vue]. *)
Definition flask_with_odd_package_json : World :=
  world_of {| dirs := ["/p"];
              files := [("/p/app.py", "from flask import Flask")];
              xml := [];
              json := [("/p/package.json", Json.JArr [Json.JInt 1])];
              trees := [("/p", Dir ["app.py"; "package.json"] [])]; procs := [] |}.

(** Block texts for the examples: every block is shown by one line. *)
Definition short_text (b : block) : string :=
  match b with
  | AngularDetected v => "# Detectado: Angular " +:+ v
  | BootHeader v => "# Spring Boot " +:+ v
  | PythonHeader => "# Proyecto Python"
  | _ => "# ..."
  end.

(** An Angular rule set under [verbose]. *)
Definition verbose_angular : RuleGenerator.RuleSet :=
  RuleGenerator.new_RuleSet "angular" (<["uses_ngrx" := PBool true]> ∅) None true.

(** A world without any directory. *)
Definition nothing : World :=
  world_of {| dirs := []; files := []; xml := []; json := []; trees := []; procs := [] |}.

(** The world [w] where every subprocess hangs until its timeout. *)
Definition hanging (w : World) : World := {|
  os_path_isdir := os_path_isdir w;
  os_path_exists := os_path_exists w;
  os_path_abspath := os_path_abspath w;
  os_path_relpath := os_path_relpath w;
  os_getcwd := os_getcwd w;
  environ_CURSOR_WORKSPACE := environ_CURSOR_WORKSPACE w;
  core_dir := core_dir w;
  read_text := read_text w;
  ET_parse := ET_parse w;
  json_load := json_load w;
  listing := listing w;
  subprocess_run _ _ := TimeoutExpired;
  py_float := py_float w;
  makedirs_fault := makedirs_fault w;
  open_w_fault := open_w_fault w;
  write_fault := write_fault w;
|}.

(** A Python project with a virtual environment and no version file. *)
Definition venv_project : World :=
  world_of {| dirs := ["/p"; "/p/.venv"; "/p/.venv/bin"];
              files := [("/p/requirements.txt", "flask==2.0");
                        ("/p/.venv/bin/python", "")];
              xml := []; json := [];
              trees := [("/p", Dir ["requirements.txt"]
                                 [(".venv", Dir [] [("bin", Dir ["python"] [])])])];
              procs := [(["/p/.venv/bin/python"; "--version"],
                         Completed 0 "Python 3.11.5" "")] |}.

(** An empty project directory, on a machine where the directory of the
    templates holds no file. *)
Definition no_templates : World :=
  world_of {| dirs := ["/p"]; files := []; xml := []; json := [];
              trees := [("/p", Dir [] [])]; procs := [] |}.

(** A Vue project with its template installed and a file of custom
    rules. *)
Definition vue_with_custom_rules : World :=
  world_of {| dirs := ["/p"];
              files := [("/p/vue.config.js", "module.exports = {}");
                        ("/app/core/../templates/vue.mdc", "# Vue rules");
                        ("/p/custom.mdc", "# My own rules")];
              xml := []; json := [];
              trees := [("/p", Dir ["vue.config.js"; "custom.mdc"] [])]; procs := [] |}.

(** The world [w] with a disk on which only the first [n] characters
    written to the file [p] reach it. *)
Definition failing_disk (w : World) (p : string) (n : nat) : World := {|
  os_path_isdir := os_path_isdir w;
  os_path_exists := os_path_exists w;
  os_path_abspath := os_path_abspath w;
  os_path_relpath := os_path_relpath w;
  os_getcwd := os_getcwd w;
  environ_CURSOR_WORKSPACE := environ_CURSOR_WORKSPACE w;
  core_dir := core_dir w;
  read_text := read_text w;
  ET_parse := ET_parse w;
  json_load := json_load w;
  listing := listing w;
  subprocess_run := subprocess_run w;
  py_float := py_float w;
  makedirs_fault := makedirs_fault w;
  open_w_fault := open_w_fault w;
  write_fault q := if String.eqb q p then Some n else write_fault w q;
|}.

(** A Vue project whose rules were generated before. *)
Definition vue_with_old_rules : World :=
  world_of {| dirs := ["/p"; "/p/.cursor"; "/p/.cursor/rules"];
              files := [("/p/vue.config.js", "module.exports = {}");
                        ("/app/core/../templates/vue.mdc", "# Vue rules");
                        ("/p/.cursor/rules/rules.mdc", "# Old rules")];
              xml := []; json := [];
              trees := [("/p", Dir ["vue.config.js"]
                                 [(".cursor", Dir [] [("rules", Dir ["rules.mdc"] [])])])];
              procs := [] |}.

(** A Flask application that runs in debug mode. *)
Definition flask_debug : World :=
  world_of {| dirs := ["/p"];
              files := [("/p/app.py",
                         "from flask import Flask; app = Flask(__name__); app.run(debug=True)")];
              xml := []; json := [];
              trees := [("/p", Dir ["app.py"] [])]; procs := [] |}.

(** The world [w] seen from the working directory [cwd]; the relative
    names listed have the absolute form given. *)
Definition seen_from (w : World) (cwd : string) (absolute : list (string * string))
  : World := {|
  os_path_isdir := os_path_isdir w;
  os_path_exists := os_path_exists w;
  os_path_abspath p := default (os_path_abspath w p) (assoc absolute p);
  os_path_relpath := os_path_relpath w;
  os_getcwd := cwd;
  environ_CURSOR_WORKSPACE := environ_CURSOR_WORKSPACE w;
  core_dir := core_dir w;
  read_text := read_text w;
  ET_parse := ET_parse w;
  json_load := json_load w;
  listing := listing w;
  subprocess_run := subprocess_run w;
  py_float := py_float w;
  makedirs_fault := makedirs_fault w;
  open_w_fault := open_w_fault w;
  write_fault := write_fault w;
|}.

(** A directory with a pipeline description, which is the working
    directory of the server.  It has no entry [ghost]: the name [ghost/..]
    is not a directory, and its absolute form is the working directory. *)
Definition pipeline_in_cwd : World :=
  seen_from
    (world_of {| dirs := ["/p"];
                 files := [("/p/.gitlab-ci.yml", "stages: [build]");
                           ("/app/core/../templates/gitlab_ci.mdc", "# GitLab CI rules")];
                 xml := []; json := [];
                 trees := [("/p", Dir [".gitlab-ci.yml"] [])]; procs := [] |})
    "/p" [("ghost/..", "/p")].

(** An output name with a null character in it. *)
Definition name_with_null : string :=
  "rules" +:+ String Ascii.zero "" +:+ "x".

End Samples.

(** * Properties *)

(** ** Checks of the text functions on inputs of the kind the source meets *)

Example banner_of_interpreter :
  Re.search Analyzer.re_python_banner "Python 3.11.5" = Some ["3.11.5"].
Proof. reflexivity. Qed.

Example version_of_specifier :
  Re.search Analyzer.re_version ">=3.8,<4" = Some ["3.8"].
Proof. reflexivity. Qed.

Example python_of_pipfile :
  Re.search Analyzer.re_pipfile_python "[requires] python_version = '3.9'" = Some ["3.9"].
Proof. reflexivity. Qed.

Example major_and_minor :
  Re.search Analyzer.re_major_minor "4.3.2.RELEASE" = Some ["4"; "3"].
Proof. reflexivity. Qed.

Example frontmatter_and_body :
  Utils.parse_mdc ("---" +:+ Str.newline +:+ "alwaysApply: true" +:+ Str.newline
                   +:+ "---" +:+ Str.newline +:+ "# Rules") =
    {| Utils.frontmatter := Some "alwaysApply: true"; Utils.content := "# Rules" |}.
Proof. reflexivity. Qed.

Example int_of_padded_text : PyInt.parse " +1_000 " = Some 1000.
Proof. reflexivity. Qed.

Example int_of_letters : PyInt.parse "3x" = None.
Proof. reflexivity. Qed.

Example dirname_of_output :
  path_dirname "/p/.cursor/rules/rules.mdc" = "/p/.cursor/rules".
Proof. reflexivity. Qed.

Example walk_prunes :
  os_walk (fun d => negb (Str.mem d Analyzer.skipped_dirs)) "/p"
    (Dir ["a.py"] [("venv", Dir ["x.py"] []); ("src", Dir ["b.py"] [])]) =
    [("/p", ["src"], ["a.py"]); ("/p/src", [], ["b.py"])].
Proof. reflexivity. Qed.

(** ** The probe pipeline *)

Section Pipeline.

Variables (w : World) (project_path : string).

Lemma category_name_truthy (c : category) :
  py_truthy (PStr (category_name c)) = true.
Proof. by destruct c. Qed.

(** Probes that give no category are called and passed over. *)
Lemma run_checkers_pass_over (pre rest : list Analyzer.checker)
    (d : gmap string pyval) :
  Forall (gives_no_category w project_path) pre →
  Analyzer.run_checkers (pre ++ rest) w project_path d =
    let '(t, d', called) := Analyzer.run_checkers rest w project_path d in
    (t, d', map Analyzer.checker_name pre ++ called).
Proof.
  induction 1 as [|c pre Hc _ IH]; simpl.
  - by destruct (Analyzer.run_checkers rest w project_path d) as [[??]?].
  - unfold gives_no_category, Analyzer.no_category in Hc. rewrite IH.
    destruct (Analyzer.run_checkers rest w project_path d) as [[??]?].
    destruct (Analyzer.run_checker c w project_path) as [|[t|] det]; done.
Qed.

(** The first probe with a category ends the loop. *)
Lemma run_checkers_match (c : Analyzer.checker) (post : list Analyzer.checker)
    (d : gmap string pyval) (t : category) (details : gmap string pyval) :
  Analyzer.run_checker c w project_path = Returned (Some t) details →
  Analyzer.run_checkers (c :: post) w project_path d =
    (Some t, py_update d details, [Analyzer.checker_name c]).
Proof.
  intros Hc. cbn [Analyzer.run_checkers]. by rewrite Hc, category_name_truthy.
Qed.

Lemma run_checkers_none (cs : list Analyzer.checker) (d : gmap string pyval) :
  Forall (gives_no_category w project_path) cs →
  Analyzer.run_checkers cs w project_path d = (None, d, map Analyzer.checker_name cs).
Proof.
  intros H. rewrite <- (app_nil_r cs) at 1.
  rewrite run_checkers_pass_over by done. simpl. by rewrite app_nil_r.
Qed.

Lemma py_update_empty (details : gmap string pyval) : py_update ∅ details = details.
Proof. unfold py_update. apply (right_id_L ∅ (∪)). Qed.

End Pipeline.

(** C1.  For a project root that is a directory, [analyze_project] calls the
    probes of [PROJECT_CHECKERS] in their fixed order; the first probe that
    returns a category ends the run, its category and its details are the
    result, and the probes after it are not called; when no probe returns a
    category the result is [(None, {})]. *)
Theorem analyze_project_first_match (w : World) (project_path : string) :
  os_path_isdir w project_path = true →
  map Analyzer.checker_name Analyzer.PROJECT_CHECKERS =
    ["check_spring_boot"; "check_java_legacy"; "check_angular"; "check_vue";
     "check_python"; "check_gitlab_ci"]
  ∧ (∀ pre c post t details,
       Analyzer.PROJECT_CHECKERS = pre ++ c :: post →
       Forall (gives_no_category w project_path) pre →
       Analyzer.run_checker c w project_path = Returned (Some t) details →
       Analyzer.analyze_project_traced w project_path =
         ((Some t, details), map Analyzer.checker_name pre ++ [Analyzer.checker_name c]))
  ∧ (Forall (gives_no_category w project_path) Analyzer.PROJECT_CHECKERS →
     Analyzer.analyze_project_traced w project_path =
       ((None, ∅), map Analyzer.checker_name Analyzer.PROJECT_CHECKERS)).
Proof.
  intros Hdir. split; [reflexivity|]. split.
  - intros pre c post t details Hlist Hpre Hc.
    unfold Analyzer.analyze_project_traced, Analyzer.analyze_with.
    rewrite Hdir, Hlist. simpl negb. cbv iota.
    rewrite run_checkers_pass_over by exact Hpre.
    rewrite (run_checkers_match _ _ _ _ _ _ _ Hc).
    by rewrite py_update_empty.
  - intros Hall.
    unfold Analyzer.analyze_project_traced, Analyzer.analyze_with.
    rewrite Hdir. simpl negb. cbv iota.
    by rewrite run_checkers_none.
Qed.

Lemma analyze_project_first_match_witness :
  os_path_isdir Samples.gitlab_only "/p" = true
  ∧ Analyzer.analyze_project_traced Samples.gitlab_only "/p" =
      ((Some gitlab_ci, ∅),
       ["check_spring_boot"; "check_java_legacy"; "check_angular"; "check_vue";
        "check_python"; "check_gitlab_ci"]).
Proof.
  split; [reflexivity|].
  destruct (analyze_project_first_match Samples.gitlab_only "/p" eq_refl) as (_ & H & _).
  refine (H (firstn 5 Analyzer.PROJECT_CHECKERS) _ [] gitlab_ci ∅ eq_refl _ _).
  - repeat (apply Forall_cons_2; [vm_compute; exact I|]). apply Forall_nil_2.
  - vm_compute. reflexivity.
Defined.

(** C2.  A probe of [PROJECT_CHECKERS] that raises is treated as a probe
    without a match: the result is the one obtained with a probe that
    returns [(None, {})] in its place, and, when the probes before it gave
    no category, it is the result of the probes after it, so that the match
    of a later probe is returned. *)
Theorem raising_probe_is_skipped (w : World) (project_path : string)
    (pre post : list Analyzer.checker) (c : Analyzer.checker) :
  Analyzer.PROJECT_CHECKERS = pre ++ c :: post →
  os_path_isdir w project_path = true →
  Analyzer.run_checker c w project_path = Raised →
  let silent := {| Analyzer.checker_name := Analyzer.checker_name c;
                   Analyzer.run_checker := fun _ _ => Returned None ∅ |} in
  Analyzer.analyze_project_traced w project_path =
    Analyzer.analyze_with (pre ++ silent :: post) w project_path
  ∧ (Forall (gives_no_category w project_path) pre →
     Analyzer.analyze_project_traced w project_path =
       (fst (Analyzer.analyze_with post w project_path),
        map Analyzer.checker_name pre
        ++ Analyzer.checker_name c :: snd (Analyzer.analyze_with post w project_path))).
Proof.
  intros Hlist Hdir Hc silent.
  unfold Analyzer.analyze_project_traced, Analyzer.analyze_with.
  rewrite Hdir, Hlist. simpl negb. cbv iota. split.
  - assert (∀ d, Analyzer.run_checkers (pre ++ c :: post) w project_path d =
                 Analyzer.run_checkers (pre ++ silent :: post) w project_path d) as ->; [|done].
    intros d. clear Hlist. induction pre as [|p pre IH]; simpl.
    + by rewrite Hc.
    + by rewrite IH.
  - intros Hpre. rewrite run_checkers_pass_over by exact Hpre. simpl.
    rewrite Hc.
    destruct (Analyzer.run_checkers post w project_path ∅) as [[[t|] d] called]; done.
Qed.

Lemma raising_probe_is_skipped_witness :
  os_path_isdir Samples.flask_with_odd_package_json "/p" = true
  ∧ Analyzer.check_angular Samples.flask_with_odd_package_json "/p" = Raised
  ∧ fst (Analyzer.analyze_project_traced Samples.flask_with_odd_package_json "/p") =
      fst (Analyzer.analyze_with (skipn 3 Analyzer.PROJECT_CHECKERS)
             Samples.flask_with_odd_package_json "/p")
  ∧ fst (fst (Analyzer.analyze_project_traced Samples.flask_with_odd_package_json "/p")) =
      Some python.
Proof.
  split; [reflexivity|]. split; [vm_compute; reflexivity|].
  destruct (raising_probe_is_skipped Samples.flask_with_odd_package_json "/p"
              (firstn 2 Analyzer.PROJECT_CHECKERS) (skipn 3 Analyzer.PROJECT_CHECKERS)
              (nth 2 Analyzer.PROJECT_CHECKERS
                 {| Analyzer.checker_name := ""; Analyzer.run_checker := fun _ _ => Raised |})
              eq_refl eq_refl ltac:(vm_compute; reflexivity)) as [_ H].
  assert (Forall (gives_no_category Samples.flask_with_odd_package_json "/p")
                 (firstn 2 Analyzer.PROJECT_CHECKERS)) as Hpre.
  { repeat (apply Forall_cons_2; [vm_compute; exact I|]). apply Forall_nil_2. }
  specialize (H Hpre). split.
  - rewrite H. reflexivity.
  - rewrite H. vm_compute. reflexivity.
Defined.

(** ** The number at the head of a version *)

Section LeadingNumber.

Lemma substring_0_S (c : ascii) (s : string) (n : nat) :
  String.substring 0 (S n) (String c s) = String c (String.substring 0 n s).
Proof. reflexivity. Qed.

Lemma take_run_length (s : string) :
  Re.take (Re.run_length Str.is_digit s) s = leading_digits s.
Proof.
  unfold Re.take. induction s as [|c s IH]; [reflexivity|].
  cbn [Re.run_length leading_digits]. destruct (Str.is_digit c).
  - by rewrite substring_0_S, IH.
  - reflexivity.
Qed.

Lemma run_length_positive (c : ascii) (s : string) :
  Str.is_digit c = true → (1 <= Re.run_length Str.is_digit (String c s))%nat.
Proof. intros H. cbn [Re.run_length]. rewrite H. lia. Qed.

Lemma longest_first_total {R} (k lo : nat) (f : nat → R) :
  Re.longest_first k lo (fun n => Some (f n)) =
    if (k <? lo)%nat then None else Some (f k).
Proof. destruct k; reflexivity. Qed.

(** [(\d+)] at a position: the longest run of digits there. *)
Lemma match_number_here (prev : option ascii) (s : string) :
  Re.match_here Analyzer.re_number prev s None [] =
    if (Re.run_length Str.is_digit s <? 1)%nat then None
    else Some [leading_digits s].
Proof.
  unfold Analyzer.re_number, Re.digits_plus. cbn [Re.match_here].
  rewrite (longest_first_total _ _
             (fun k => rev [default "" (Re.extend (Some "") (Re.take k s))])).
  by rewrite take_run_length.
Qed.

(** [re.search(r'(\d+)', s)] finds the first run of digits of [s]. *)
Lemma search_number (s : string) :
  Re.search Analyzer.re_number s = (fun g => [g]) <$> first_number s.
Proof.
  unfold Re.search. generalize (@None ascii) as prev.
  induction s as [|c s IH]; intros prev.
  - reflexivity.
  - cbn [Re.search_from first_number]. rewrite match_number_here.
    cbn [Re.run_length]. destruct (Str.is_digit c); [reflexivity|].
    simpl. apply IH.
Qed.

Lemma digit_not_space (c : ascii) : Str.is_digit c = true → Str.is_space c = false.
Proof. destruct c as [[] [] [] [] [] [] [] []]; done. Qed.

Lemma digit_not_sign (c : ascii) :
  Str.is_digit c = true → Ascii.eqb c "-" = false ∧ Ascii.eqb c "+" = false.
Proof. destruct c as [[] [] [] [] [] [] [] []]; done. Qed.

Lemma rstrip_leading_digits (s : string) :
  Str.rstrip (leading_digits s) = leading_digits s.
Proof.
  induction s as [|c s IH]; [reflexivity|].
  cbn [leading_digits]. destruct (Str.is_digit c) eqn:E; [|reflexivity].
  cbn [Str.rstrip]. rewrite IH.
  destruct (leading_digits s); [by rewrite (digit_not_space _ E)|reflexivity].
Qed.

Lemma digits_leading (s : string) (acc : Z) :
  PyInt.digits (leading_digits s) acc true = Some (digits_value (leading_digits s) acc).
Proof.
  revert acc. induction s as [|c s IH]; intros acc; [reflexivity|].
  cbn [leading_digits]. destruct (Str.is_digit c) eqn:E; [|reflexivity].
  cbn [PyInt.digits digits_value]. rewrite E. apply IH.
Qed.

(** [int] of the digits at the head of a string that starts with a digit
    does not raise. *)
Lemma parse_leading_digits (c : ascii) (s : string) :
  Str.is_digit c = true →
  PyInt.count_digits (leading_digits (String c s)) <= PyInt.max_str_digits →
  PyInt.parse (leading_digits (String c s)) =
    Some (digits_value (leading_digits (String c s)) 0).
Proof.
  intros E Hmax. unfold PyInt.parse, Str.strip.
  assert (Str.lstrip (leading_digits (String c s)) = leading_digits (String c s)) as ->.
  { cbn [leading_digits]. rewrite E. cbn [Str.lstrip]. by rewrite (digit_not_space _ E). }
  rewrite rstrip_leading_digits.
  revert Hmax. cbn [leading_digits]. rewrite E. intros Hmax.
  apply Z.ltb_ge in Hmax. rewrite Hmax.
  destruct (digit_not_sign _ E) as [-> ->].
  cbn [PyInt.digits digits_value]. rewrite E. apply digits_leading.
Qed.

(** [int(m.group(1))] after a match of [(\d+)] does not raise, unless the
    run of digits is longer than [int] accepts. *)
Lemma parse_first_number (s g : string) :
  first_number s = Some g →
  PyInt.count_digits g <= PyInt.max_str_digits →
  PyInt.parse g = Some (digits_value g 0).
Proof.
  induction s as [|c s IH]; [done|].
  cbn [first_number]. destruct (Str.is_digit c) eqn:E; [|exact IH].
  intros [= <-]. by apply parse_leading_digits.
Qed.

End LeadingNumber.

(** ** The Spring Boot probe *)

Section SpringBootParent.

Lemma set_true_other (k k' : string) (d : gmap string pyval) :
  k ≠ k' → Analyzer.set_true k d !! k' = d !! k'.
Proof. intros. unfold Analyzer.set_true. by rewrite lookup_insert_ne. Qed.

(** Such a dependency does not raise, and leaves the version keys alone. *)
Lemma parent_dependency_ok (dep : ET.Element) (d : gmap string pyval) :
  artifact_has_text dep →
  ∃ d', Analyzer.spring_boot_parent_dependency dep d = Some d'
        ∧ ∀ k, k ∈ version_keys → d' !! k = d !! k.
Proof.
  intros Hdep. unfold Analyzer.spring_boot_parent_dependency.
  destruct (ET.find dep (ET.m "groupId")) as [g|]; [|by eauto].
  destruct (ET.find dep (ET.m "artifactId")) as [a|] eqn:Ha; [|by eauto].
  destruct (Hdep a Ha) as [at_ Hat]. rewrite Hat.
  unfold Analyzer.and_in, Analyzer.in_text.
  repeat (case_match; simplify_eq/=);
    (eexists; split; [reflexivity|]); intros k Hk;
    rewrite ?set_true_other; try done;
    intros <-; unfold version_keys in Hk;
    repeat (apply elem_of_cons in Hk as [?|Hk]; [discriminate|]);
    by apply elem_of_nil in Hk.
Qed.

Lemma parent_dependencies_ok (deps : list ET.Element) (d : gmap string pyval) :
  Forall artifact_has_text deps →
  ∃ d', Analyzer.for_loop (R := option category)
          (Analyzer.no_return Analyzer.spring_boot_parent_dependency) deps d = (Fall, d')
        ∧ ∀ k, k ∈ version_keys → d' !! k = d !! k.
Proof.
  intros H. revert d. induction H as [|dep deps Hdep _ IH]; intros d; simpl.
  - by eauto.
  - destruct (parent_dependency_ok dep d Hdep) as (d1 & Hd1 & Hk1).
    unfold Analyzer.no_return at 1. rewrite Hd1.
    destruct (IH d1) as (d2 & Hd2 & Hk2). exists d2. split; [done|].
    intros k Hk. by rewrite Hk2, Hk1.
Qed.

(** The version block neither raises nor returns, and records the
    declared text. *)
Lemma parent_version_falls (v : string) :
  number_within_limit v →
  ∃ d', Analyzer.spring_boot_parent_version (Some v) ∅ = (Fall, d')
        ∧ d' !! "spring_boot_version" = Some (PStr v)
        ∧ d' !! "spring_boot_major_version" =
            (fun g => PInt (digits_value g 0)) <$> first_number v.
Proof.
  intros Hmax.
  unfold Analyzer.spring_boot_parent_version. rewrite search_number.
  destruct (first_number v) as [g|] eqn:E; cbn [fmap option_fmap option_map].
  - change (Re.group 1 [g]) with g. rewrite (parse_first_number _ _ E (Hmax g E)).
    repeat case_match; eexists; (split; [reflexivity|]);
      unfold Analyzer.set_true; by simplify_map_eq.
  - eexists. split; [reflexivity|]. by simplify_map_eq.
Qed.

(** A parent [spring-boot-starter-parent] with a version text [v] makes
    [check_spring_boot] return [springboot] with that text, provided no
    dependency has an empty [artifactId] element and the first number of
    [v] is one that [int] accepts. *)
Lemma spring_boot_parent_detected (w : World) (project_path : string)
    (root parent artifactId version_tag : ET.Element) (v : string) :
  number_within_limit v →
  os_path_exists w (path_join project_path "pom.xml") = true →
  ET_parse w (path_join project_path "pom.xml") = Some root →
  ET.find root (ET.m "parent") = Some parent →
  ET.find parent (ET.m "artifactId") = Some artifactId →
  ET.text artifactId = Some "spring-boot-starter-parent" →
  ET.find parent (ET.m "version") = Some version_tag →
  ET.text version_tag = Some v →
  (∀ dependencies, ET.find root (ET.m "dependencies") = Some dependencies →
     Forall artifact_has_text (ET.findall dependencies (ET.m "dependency"))) →
  ∃ details,
    Analyzer.check_spring_boot w project_path = Returned (Some springboot) details
    ∧ details !! "spring_boot_version" = Some (PStr v)
    ∧ ∀ k, k ∈ version_keys →
           details !! k = snd (Analyzer.spring_boot_parent_version (Some v) ∅) !! k.
Proof.
  intros Hmax Hex Hparse Hparent Hart Htext Hver Hv Hdeps.
  unfold Analyzer.check_spring_boot. rewrite Hex, Hparse.
  unfold Analyzer.spring_boot_pom. rewrite Hparent, Hart, Htext, Hver, Hv.
  cbn [Analyzer.text_is]. rewrite String.eqb_refl.
  destruct (parent_version_falls v Hmax) as (d0 & Hfalls & Hd0 & _).
  rewrite !Hfalls. cbn [snd].
  destruct (ET.find root (ET.m "dependencies")) as [dependencies|] eqn:Hd.
  - destruct (parent_dependencies_ok _ d0 (Hdeps _ eq_refl)) as (d1 & -> & Hk).
    cbn. exists d1. split; [done|]. split; [|done].
    rewrite Hk; [done|]. unfold version_keys. set_solver.
  - cbn. exists d0. done.
Qed.

End SpringBootParent.

(** The two versions that the specification names. *)
Example spring_boot_2_7_5 :
  Analyzer.analyze_project (Samples.boot_project "2.7.5" []) "/p" =
    (Some springboot,
     <["spring_boot_version" := PStr "2.7.5"]>
       (<["spring_boot_major_version" := PInt 2]>
          (<["is_modern" := PBool true]>
             (<["security_priority" := PStr "medium"]> ∅)))).
Proof. vm_compute. reflexivity. Qed.

Example spring_boot_1_4_2 :
  Analyzer.analyze_project (Samples.boot_project "1.4.2" []) "/p" =
    (Some springboot,
     <["spring_boot_version" := PStr "1.4.2"]>
       (<["spring_boot_major_version" := PInt 1]>
          (<["is_legacy" := PBool true]>
             (<["security_priority" := PStr "high"]> ∅)))).
Proof. vm_compute. reflexivity. Qed.

(** C3.  The parent [spring-boot-starter-parent] at version 1.4.2 is not
    reported when a dependency with the group [mysql] has an empty
    [artifactId] element: the test [in artifact_text] raises [TypeError], the
    [except] clause of [check_spring_boot] drops the match that the parent
    had established, and no other probe matches. *)
Theorem spring_boot_parent_lost :
  let w := Samples.boot_project "1.4.2" [Samples.mysql_without_artifact] in
  Analyzer.spring_boot_parent_dependency Samples.mysql_without_artifact ∅ = None
  ∧ Analyzer.check_spring_boot w "/p" = Returned None ∅
  ∧ Analyzer.analyze_project w "/p" = (None, ∅).
Proof. vm_compute. repeat split; reflexivity. Qed.

(** ** The adaptation step *)

(** C4, as stated, fails: with [verbose] set, [_adapt_rules] prints a line
    after it has adapted the rules of an Angular project. *)
Lemma adapt_rules_prints_when_verbose :
  ¬ (∀ (text : block → string) (self : RuleGenerator.RuleSet) (base : string)
       (adapted : string) (out : list printed),
       RuleGenerator._adapt_rules text self base = Some (adapted, out) → out = []).
Proof.
  intros H.
  specialize (H Samples.short_text Samples.verbose_angular "" "
# ..." [AdaptedRules "Angular" (dom (RuleGenerator.detected_tech Samples.verbose_angular))]).
  by specialize (H ltac:(vm_compute; reflexivity)).
Qed.

(** C4, amended.  What [_adapt_rules] returns (a document, or an exception)
    depends on the project type, the detected technologies and the base
    document only, not on [verbose] nor on the custom rules, and the step
    reads nothing from the world.  It prints nothing when [verbose] is not
    set.  With [verbose] set and something detected, when the adapter of an
    [angular], [springboot], [java_legacy_spring] or [python] document
    returns, exactly one line is printed, which names the technology and
    shows the keys of the detected technologies; when the adapter raises,
    the exception leaves [_adapt_rules] before the line is printed.  When
    the project type is none of these four, or when nothing was detected,
    the base document is returned as it is and nothing is printed. *)
Theorem adapt_rules_deterministic (text : block → string)
    (self other : RuleGenerator.RuleSet) (base : string) :
  RuleGenerator.project_type other = RuleGenerator.project_type self →
  RuleGenerator.detected_tech other = RuleGenerator.detected_tech self →
  fst <$> RuleGenerator._adapt_rules text other base =
    fst <$> RuleGenerator._adapt_rules text self base
  ∧ (RuleGenerator.verbose self = false →
     ∀ adapted out, RuleGenerator._adapt_rules text self base = Some (adapted, out) →
                    out = [])
  ∧ (RuleGenerator.project_type self ∉
       ["angular"; "springboot"; "java_legacy_spring"; "python"] →
     RuleGenerator._adapt_rules text self base = Some (base, []))
  ∧ (RuleGenerator.detected_tech self = ∅ →
     RuleGenerator._adapt_rules text self base = Some (base, []))
  ∧ (RuleGenerator.verbose self = true →
     RuleGenerator.detected_tech self ≠ ∅ →
     ∀ technology,
       (RuleGenerator.project_type self, technology) ∈
         [("angular", "Angular"); ("springboot", "Spring Boot");
          ("java_legacy_spring", "Java Legacy Spring"); ("python", "Python")] →
       ∀ adapted out,
         RuleGenerator._adapt_rules text self base = Some (adapted, out) →
         out = [AdaptedRules technology (dom (RuleGenerator.detected_tech self))]).
Proof.
  intros Htype Htech. unfold RuleGenerator._adapt_rules. rewrite Htype, Htech.
  split; [|split; [|split; [|split]]].
  - repeat case_match; try reflexivity;
      match goal with
      | |- context [?f text ?t base] => destruct (f text t base)
      end; reflexivity.
  - intros Hquiet adapted out. rewrite Hquiet.
    repeat case_match; try (by intros [= _ <-]);
      match goal with
      | |- context [?f text ?t base] => destruct (f text t base)
      end; simpl; by intros [= _ <-].
  - intros Hother.
    repeat case_match; try reflexivity;
      match goal with
      | H : String.eqb _ _ = true |- _ => apply String.eqb_eq in H
      end; exfalso; apply Hother;
      match goal with H : RuleGenerator.project_type self = _ |- _ => rewrite H end;
      set_solver.
  - intros ->. by case_match.
  - intros Hloud Hsome technology Hin adapted out. rewrite Hloud.
    destruct (decide (RuleGenerator.detected_tech self = ∅)); [done|].
    repeat (apply elem_of_cons in Hin as [[= Ht <-]|Hin];
            [rewrite Ht; cbn [String.eqb Ascii.eqb Bool.eqb];
             match goal with
             | |- context [?f text ?t base] => destruct (f text t base)
             end; simpl; by intros [= _ <-]|]).
    by apply elem_of_nil in Hin.
Qed.

Lemma adapt_rules_deterministic_witness :
  RuleGenerator.project_type (RuleGenerator.new_RuleSet "angular"
      (<["uses_ngrx" := PBool true]> ∅) (Some "my rules") false) =
    RuleGenerator.project_type Samples.verbose_angular
  ∧ fst <$> RuleGenerator._adapt_rules Samples.short_text
              (RuleGenerator.new_RuleSet "angular" (<["uses_ngrx" := PBool true]> ∅)
                 (Some "my rules") false) "base" =
    fst <$> RuleGenerator._adapt_rules Samples.short_text Samples.verbose_angular "base".
Proof.
  split; [reflexivity|].
  exact (proj1 (adapt_rules_deterministic Samples.short_text Samples.verbose_angular
                  (RuleGenerator.new_RuleSet "angular" (<["uses_ngrx" := PBool true]> ∅)
                     (Some "my rules") false) "base" eq_refl eq_refl)).
Defined.

(** ** The tools on a path that is not a directory *)

Section Naming.

Lemma prefix_append (x b : string) : String.prefix x (x +:+ b) = true.
Proof.
  induction x as [|c x IH]; simpl; [by destruct b|].
  destruct (ascii_dec c c); [exact IH|done].
Qed.

Lemma prefix_self (x : string) : String.prefix x x = true.
Proof.
  induction x as [|c x IH]; simpl; [done|]. destruct (ascii_dec c c); [exact IH|done].
Qed.

Lemma contains_here (x s : string) : String.prefix x s = true → Str.contains x s = true.
Proof. intros H. destruct s; cbn [Str.contains]; by rewrite H. Qed.

Lemma contains_later (x a s : string) :
  Str.contains x s = true → Str.contains x (a +:+ s) = true.
Proof.
  intros H. induction a as [|c a IH]; [exact H|].
  change (Str.contains x (String c (a +:+ s)) = true).
  cbn [Str.contains]. rewrite IH. apply orb_true_r.
Qed.

(** The message of the tools names the path. *)
Lemma invalid_path_error_names (path : string) :
  Str.contains path (Tools.invalid_path_error path) = true.
Proof.
  unfold Tools.invalid_path_error. apply contains_later, contains_here, prefix_append.
Qed.

End Naming.

(** C5, as stated, fails: the tools test the path that they resolve, not
    the path supplied.  The name [ghost/..] is not a directory where
    [ghost] does not exist, but [os.path.abspath] turns it into the working
    directory; the empty name is not a directory either, and stands for no
    path at all.  With either supplied, the three tools succeed when the
    working directory is a project. *)
Lemma supplied_path_is_resolved_first :
  ¬ (∀ (w : World) (supplied : string),
       os_path_isdir w supplied = false →
       success (Tools.analyze_project_tool w (Some supplied)) = false)
  ∧ ¬ (∀ (w : World) (supplied : string),
         os_path_isdir w supplied = false →
         success (Tools.detect_technology_tool w (Some supplied)) = false)
  ∧ ¬ (∀ (text : block → string) (w : World) (supplied : string),
         os_path_isdir w supplied = false →
         success (fst (Tools.generate_rules_tool text w (Some supplied) "rules"
                         None false None)) = false)
  ∧ (let w := Samples.pipeline_in_cwd in
     os_path_exists w "ghost/.." = false
     ∧ os_path_isdir w "" = false
     ∧ success (Tools.analyze_project_tool w (Some "")) = true
     ∧ success (Tools.detect_technology_tool w (Some "")) = true
     ∧ success (fst (Tools.generate_rules_tool Samples.short_text w (Some "") "rules"
                       None false None)) = true).
Proof.
  split; [|split; [|split]].
  - intros H. specialize (H Samples.pipeline_in_cwd "ghost/.." eq_refl).
    vm_compute in H. discriminate H.
  - intros H. specialize (H Samples.pipeline_in_cwd "ghost/.." eq_refl).
    vm_compute in H. discriminate H.
  - intros H. specialize (H Samples.short_text Samples.pipeline_in_cwd "ghost/.." eq_refl).
    vm_compute in H. discriminate H.
  - vm_compute. repeat split; reflexivity.
Qed.

(** C5, amended.  A tool resolves its path first: the absolute form of a
    supplied, non-empty path, otherwise [CURSOR_WORKSPACE] if it is set and
    not empty, otherwise the working directory.  When the resolved path is
    not a directory, [analyze_project_tool], [detect_technology_tool] and
    [generate_rules_tool] each return a failure whose error text names
    that path; no exception escapes, and [generate_rules_tool] leaves the
    world as it was. *)
Theorem invalid_path_is_reported (text : block → string) (w : World)
    (provided_path : option string) (output_filename : string)
    (custom_rules_path : option string) (verbose : bool) (project_type : option string) :
  let path := Tools.get_project_path_from_context w provided_path in
  os_path_isdir w path = false →
  (∀ p, provided_path = Some p → p ≠ "" → path = os_path_abspath w p)
  ∧ Tools.analyze_project_tool w provided_path =
      InvalidPath (Tools.invalid_path_error path) (Some path)
  ∧ Tools.detect_technology_tool w provided_path =
      InvalidPath (Tools.invalid_path_error path) None
  ∧ Tools.generate_rules_tool text w provided_path output_filename custom_rules_path
      verbose project_type =
      (InvalidPath (Tools.invalid_path_error path) (Some path), w)
  ∧ success (InvalidPath (Tools.invalid_path_error path) (Some path)) = false
  ∧ Str.contains path (Tools.invalid_path_error path) = true
  ∧ (provided_path = None ∨ provided_path = Some "" →
     path = match environ_CURSOR_WORKSPACE w with
            | Some ws => if String.eqb ws "" then os_getcwd w else ws
            | None => os_getcwd w
            end).
Proof.
  intros path Hdir.
  split; [|split; [|split; [|split; [|split; [|split]]]]].
  - intros p -> Hp. unfold path, Tools.get_project_path_from_context.
    destruct (String.eqb_spec p ""); done.
  - unfold Tools.analyze_project_tool. fold path. by rewrite Hdir.
  - unfold Tools.detect_technology_tool. fold path. by rewrite Hdir.
  - unfold Tools.generate_rules_tool. fold path. by rewrite Hdir.
  - done.
  - apply invalid_path_error_names.
  - unfold path, Tools.get_project_path_from_context.
    intros [->| ->]; cbn [String.eqb negb];
      destruct (environ_CURSOR_WORKSPACE w) as [ws|]; try done;
      by destruct (String.eqb ws "").
Qed.

Lemma invalid_path_is_reported_witness :
  os_path_isdir Samples.nothing "/ruta/inexistente/test" = false
  ∧ Tools.analyze_project_tool Samples.nothing (Some "/ruta/inexistente/test") =
      InvalidPath "La ruta '/ruta/inexistente/test' no existe o no es un directorio"
                  (Some "/ruta/inexistente/test")
  ∧ Tools.generate_rules_tool Samples.short_text Samples.nothing
      (Some "/ruta/inexistente/test") "rules" None false None =
      (InvalidPath "La ruta '/ruta/inexistente/test' no existe o no es un directorio"
                   (Some "/ruta/inexistente/test"), Samples.nothing).
Proof.
  split; [reflexivity|].
  destruct (invalid_path_is_reported Samples.short_text Samples.nothing
              (Some "/ruta/inexistente/test") "rules" None false None eq_refl)
    as (_ & Ha & _ & Hg & _ & _ & _).
  split; [exact Ha | exact Hg].
Defined.

(** ** The interpreter probe *)

Section Timeouts.

Variables (w : World) (project_path : string).

Lemma for_loop_invariant {A R S} (P : S → Prop) (body : A → S → ctl R * S)
    (l : list A) (st : S) :
  (∀ x st, P st → P (snd (body x st))) →
  P st → P (snd (Analyzer.for_loop body l st)).
Proof.
  intros Hbody. revert st. induction l as [|x l IH]; intros st Hst; [exact Hst|].
  cbn [Analyzer.for_loop]. specialize (Hbody x st Hst).
  destruct (body x st) as [[] st']; cbn [snd] in *; auto.
Qed.

(** A loop whose body leaves the first component alone and falls
    through. *)
Lemma for_loop_idle {A R D C} (body : A → D * C → ctl R * (D * C))
    (l : list A) (d : D) (calls : C) :
  (∀ x calls, ∃ calls', body x (d, calls) = (Fall, (d, calls'))) →
  ∃ calls', Analyzer.for_loop body l (d, calls) = (Fall, (d, calls')).
Proof.
  intros Hbody. revert calls. induction l as [|x l IH]; intros calls; [by eexists|].
  cbn [Analyzer.for_loop]. destruct (Hbody x calls) as [calls' ->]. apply IH.
Qed.

Lemma venv_attempt_timeout (venv_name : string)
    (st : gmap string pyval * list Analyzer.call) :
  timeout_is_5 (snd st) →
  timeout_is_5 (snd (snd (Analyzer.venv_attempt w project_path venv_name st))).
Proof.
  destruct st as [details calls]. unfold Analyzer.venv_attempt, timeout_is_5.
  cbn [snd]. intros H.
  assert (∀ argv, Forall (fun c : Analyzer.call => snd c = 5) (calls ++ [(argv, 5)])) as H1.
  { intros. apply Forall_app. split; [done|]. by repeat constructor. }
  unfold Analyzer.run_with_timeout_5.
  repeat case_match; simplify_eq/=; auto.
Qed.

Lemma system_attempt_timeout (python_cmd : string)
    (st : gmap string pyval * list Analyzer.call) :
  timeout_is_5 (snd st) →
  timeout_is_5 (snd (snd (Analyzer.system_attempt w python_cmd st))).
Proof.
  destruct st as [details calls]. unfold Analyzer.system_attempt, timeout_is_5.
  cbn [snd]. intros H.
  assert (∀ argv, Forall (fun c : Analyzer.call => snd c = 5) (calls ++ [(argv, 5)])) as H1.
  { intros. apply Forall_app. split; [done|]. by repeat constructor. }
  assert (∀ argv argv', Forall (fun c : Analyzer.call => snd c = 5)
                          ((calls ++ [(argv, 5)]) ++ [(argv', 5)])) as H2.
  { intros. apply Forall_app. split; [done|]. by repeat constructor. }
  unfold Analyzer.run_with_timeout_5.
  repeat case_match; simplify_eq/=; auto.
Qed.

Lemma detect_python_version_calls :
  timeout_is_5 (snd (Analyzer.detect_python_version w project_path)).
Proof.
  unfold Analyzer.detect_python_version.
  pose proof (for_loop_invariant (R := unit) (fun st => timeout_is_5 (snd st))
                (Analyzer.venv_attempt w project_path)
                [".venv"; "venv"; "env"; ".env"] (∅, [])
                (fun x st => venv_attempt_timeout x st) (Forall_nil_2 _)) as Hvenv.
  destruct (Analyzer.for_loop (Analyzer.venv_attempt w project_path) _ _)
    as [c [details calls]]. cbn [snd] in Hvenv.
  destruct c; [|exact Hvenv|exact Hvenv].
  destruct (Analyzer.file_strategies w project_path details) as [[] details'];
    [|exact Hvenv|exact Hvenv].
  apply (for_loop_invariant (R := unit) (fun st => timeout_is_5 (snd st))
           (Analyzer.system_attempt w)).
  - intros x st. apply system_attempt_timeout.
  - exact Hvenv.
Qed.

Hypothesis all_time_out : ∀ argv t, subprocess_run w argv t = TimeoutExpired.

Lemma venv_attempt_hangs (venv_name : string) (details : gmap string pyval)
    (calls : list Analyzer.call) :
  ∃ calls', Analyzer.venv_attempt w project_path venv_name (details, calls) =
              (Fall, (details, calls')).
Proof.
  unfold Analyzer.venv_attempt, Analyzer.run_with_timeout_5.
  rewrite all_time_out. case_match; by eexists.
Qed.

Lemma system_attempt_hangs (python_cmd : string) (details : gmap string pyval)
    (calls : list Analyzer.call) :
  ∃ calls', Analyzer.system_attempt w python_cmd (details, calls) =
              (Fall, (details, calls')).
Proof.
  unfold Analyzer.system_attempt, Analyzer.run_with_timeout_5.
  rewrite all_time_out. by eexists.
Qed.

Lemma detect_python_version_hanging :
  fst (Analyzer.detect_python_version w project_path) =
    snd (Analyzer.file_strategies w project_path ∅).
Proof.
  unfold Analyzer.detect_python_version.
  destruct (for_loop_idle (R := unit) (Analyzer.venv_attempt w project_path)
              [".venv"; "venv"; "env"; ".env"] ∅ []
              (fun x calls => venv_attempt_hangs x ∅ calls)) as [calls ->].
  destruct (Analyzer.file_strategies w project_path ∅) as [[] details]; try reflexivity.
  destruct (for_loop_idle (R := unit) (Analyzer.system_attempt w)
              ["python3"; "python"] details calls
              (fun x calls => system_attempt_hangs x details calls)) as [calls' ->].
  reflexivity.
Qed.

End Timeouts.

(** C6.  Every call of [subprocess.run] made by [detect_python_version]
    carries [timeout=5].  A call that ends in [TimeoutExpired] is caught: the
    attempt leaves the details as they were and the next attempt or strategy
    runs.  When every call ends in [TimeoutExpired], the function still
    returns: its result is what the file strategies ([.python-version],
    [pyproject.toml], [Pipfile], [setup.py]) give, and the empty dictionary
    when none of these files exists. *)
Theorem interpreter_probe_timeout (w : World) (project_path : string) :
  Forall (fun c => snd c = 5) (snd (Analyzer.detect_python_version w project_path))
  ∧ (∀ venv_name details calls,
       let venv_python :=
         path_join_all (path_join project_path venv_name) ["bin"; "python"] in
       os_path_exists w venv_python = true →
       subprocess_run w [venv_python; "--version"] 5 = TimeoutExpired →
       Analyzer.venv_attempt w project_path venv_name (details, calls) =
         (Fall, (details, calls ++ [([venv_python; "--version"], 5)])))
  ∧ (∀ python_cmd details calls,
       subprocess_run w [python_cmd; "--version"] 5 = TimeoutExpired →
       Analyzer.system_attempt w python_cmd (details, calls) =
         (Fall, (details, calls ++ [([python_cmd; "--version"], 5)])))
  ∧ (∀ python_cmd details calls,
       subprocess_run w ["which"; python_cmd] 5 = TimeoutExpired →
       fst (Analyzer.system_attempt w python_cmd (details, calls)) = Fall
       ∧ fst (snd (Analyzer.system_attempt w python_cmd (details, calls))) = details)
  ∧ ((∀ argv t, subprocess_run w argv t = TimeoutExpired) →
     fst (Analyzer.detect_python_version w project_path) =
       snd (Analyzer.file_strategies w project_path ∅)
     ∧ (os_path_exists w (path_join project_path ".python-version") = false →
        os_path_exists w (path_join project_path "pyproject.toml") = false →
        os_path_exists w (path_join project_path "Pipfile") = false →
        os_path_exists w (path_join project_path "setup.py") = false →
        fst (Analyzer.detect_python_version w project_path) = ∅)).
Proof.
  split; [apply detect_python_version_calls|].
  split.
  { intros venv_name details calls venv_python Hex Hrun.
    unfold Analyzer.venv_attempt, Analyzer.run_with_timeout_5.
    fold venv_python. by rewrite Hex, Hrun. }
  split.
  { intros python_cmd details calls Hrun.
    unfold Analyzer.system_attempt, Analyzer.run_with_timeout_5. by rewrite Hrun. }
  split.
  { intros python_cmd details calls Hrun.
    unfold Analyzer.system_attempt, Analyzer.run_with_timeout_5. rewrite Hrun.
    repeat case_match; done. }
  intros Hhang. split; [by apply detect_python_version_hanging|].
  intros H1 H2 H3 H4. rewrite detect_python_version_hanging by done.
  unfold Analyzer.file_strategies, Analyzer.pyenv_strategy, Analyzer.pyproject_strategy,
    Analyzer.pipfile_strategy, Analyzer.setup_py_strategy.
  by rewrite H1, H2, H3, H4.
Qed.

Lemma interpreter_probe_timeout_witness :
  (∀ argv t, subprocess_run (Samples.hanging Samples.venv_project) argv t = TimeoutExpired)
  ∧ Analyzer.detect_python_version (Samples.hanging Samples.venv_project) "/p" =
      (∅, [(["/p/.venv/bin/python"; "--version"], 5);
           (["python3"; "--version"], 5); (["python"; "--version"], 5)])
  ∧ fst (Analyzer.detect_python_version (Samples.hanging Samples.venv_project) "/p") = ∅.
Proof.
  split; [reflexivity|]. split; [vm_compute; reflexivity|].
  destruct (interpreter_probe_timeout (Samples.hanging Samples.venv_project) "/p")
    as (_ & _ & _ & _ & H).
  exact (proj2 (H (fun _ _ => eq_refl)) eq_refl eq_refl eq_refl eq_refl).
Defined.



(** ** Generation *)

Section Generation.

Variable text : block → string.

Lemma category_name_not_empty (c : category) : String.eqb (category_name c) "" = false.
Proof. by destruct c. Qed.

(** [generate_rules] gives rules for every non-empty project type, unless
    an exception escapes: its result is never [None] there. *)
Lemma generate_rules_never_none (w : World) (t : string) (tech : gmap string pyval)
    (custom : option string) (verbose : bool) (out : list printed) :
  String.eqb t "" = false →
  RuleGenerator.generate_rules text w (Some t) tech custom verbose ≠ Some (None, out).
Proof.
  intros Ht. unfold RuleGenerator.generate_rules. rewrite Ht. cbn [negb].
  destruct (RuleGenerator.generate text w _) as [[rules out']|]; done.
Qed.

(** The custom rules do not reach the generated document. *)
Lemma generate_rules_ignores_custom (w : World) (t : option string)
    (tech : gmap string pyval) (custom : option string) (verbose : bool) :
  RuleGenerator.generate_rules text w t tech custom verbose =
    RuleGenerator.generate_rules text w t tech None verbose.
Proof. reflexivity. Qed.

Lemma generate_for_type_has_rules (w : World) (path t : string)
    (tech : gmap string pyval) (output_filename : string) (custom : option string)
    (verbose : bool) (e p t' : string) :
  String.eqb t "" = false →
  fst (Tools.generate_for_type text w path t tech output_filename custom verbose)
    ≠ NoRulesGenerated e p t'.
Proof.
  intros Ht. unfold Tools.generate_for_type.
  repeat case_match; simplify_eq; cbn [fst]; try done;
    exfalso; eapply generate_rules_never_none; eauto.
Qed.

End Generation.

(** C7.  A project type without template does not make [generate_rules_tool]
    fail.  The branch that reports [No se pudieron generar reglas] is never
    taken, because [_load_base_template] answers a missing template with an
    empty one; for the type [cobol], which has no entry in
    [PROJECT_TYPES_TEMPLATES], and for the type [vue], whose template file
    is absent, the tool writes an empty file and returns a success. *)
Theorem missing_template_still_succeeds (text : block → string) :
  (∀ w provided_path output_filename custom_rules_path verbose project_type e p t,
     fst (Tools.generate_rules_tool text w provided_path output_filename
            custom_rules_path verbose project_type) ≠ NoRulesGenerated e p t)
  ∧ RuleGenerator.PROJECT_TYPES_TEMPLATES !! "cobol" = None
  ∧ (let r := Tools.generate_rules_tool text Samples.no_templates (Some "/p") "rules"
                None false (Some "cobol") in
     success (fst r) = true
     ∧ read_text (snd r) "/p/.cursor/rules/rules.mdc" = ReadOk "")
  ∧ (let r := Tools.generate_rules_tool text Samples.no_templates (Some "/p") "rules"
                None false (Some "vue") in
     Utils.load_mdc_file Samples.no_templates
       (path_join (RuleGenerator.TEMPLATES_DIR Samples.no_templates) "vue.mdc") = Some None
     ∧ success (fst r) = true
     ∧ read_text (snd r) "/p/.cursor/rules/rules.mdc" = ReadOk "").
Proof.
  split.
  - intros. unfold Tools.generate_rules_tool.
    repeat case_match; simplify_eq; cbn [fst]; try done;
      apply generate_for_type_has_rules;
      first [ apply category_name_not_empty
            | match goal with
              | H : negb _ = true |- _ => by apply negb_true_iff in H
              end ].
  - vm_compute. repeat split; reflexivity.
Qed.

(** C8.  The content of the custom rules file is not merged: [generate]
    never reads [custom_rules_data], so [generate_rules] gives the same
    rules with and without it, and for a Vue project with an existing
    custom file the tool returns the same response and writes the same
    document as without the file. *)
Theorem custom_rules_are_not_merged (text : block → string) :
  (∀ w t tech custom verbose,
     RuleGenerator.generate_rules text w t tech custom verbose =
       RuleGenerator.generate_rules text w t tech None verbose)
  ∧ (let w := Samples.vue_with_custom_rules in
     let with_custom :=
       Tools.generate_rules_tool text w (Some "/p") "rules" (Some "/p/custom.mdc")
         false None in
     let without :=
       Tools.generate_rules_tool text w (Some "/p") "rules" None false None in
     Utils.load_mdc_file w "/p/custom.mdc" =
       Some (Some {| Utils.frontmatter := None; Utils.content := "# My own rules" |})
     ∧ fst with_custom = fst without
     ∧ success (fst with_custom) = true
     ∧ read_text (snd with_custom) "/p/.cursor/rules/rules.mdc" = ReadOk "# Vue rules"
     ∧ read_text (snd without) "/p/.cursor/rules/rules.mdc" = ReadOk "# Vue rules").
Proof.
  split; [intros; apply generate_rules_ignores_custom|].
  vm_compute. repeat split; reflexivity.
Qed.

(** ** Writing the rules *)

Section Writing.

Variable text : block → string.

Lemma with_directories_keep (made : list string) (w : World) :
  read_text (fold_left Utils.with_directory made w) = read_text w
  ∧ write_fault (fold_left Utils.with_directory made w) = write_fault w
  ∧ open_w_fault (fold_left Utils.with_directory made w) = open_w_fault w.
Proof.
  revert w. induction made as [|d made IH]; intros w; [done|].
  cbn [fold_left]. destruct (IH (Utils.with_directory w d)) as (-> & -> & ->). done.
Qed.

(** [os.makedirs] leaves the files and the faults of the disk as they are. *)
Lemma makedirs_keeps (w w' : World) (p : string) (e : option write_error) :
  Utils.makedirs w p = (e, w') →
  read_text w' = read_text w
  ∧ write_fault w' = write_fault w
  ∧ open_w_fault w' = open_w_fault w.
Proof.
  unfold Utils.makedirs.
  destruct (String.eqb p ""); [by intros [= _ <-]|].
  destruct (makedirs_fault w p) as [[e' made]|].
  - intros [= _ <-]. apply with_directories_keep.
  - destruct (Utils.has_null p); [|by intros [= _ <-]].
    destruct (String.eqb _ ""); by intros [= _ <-].
Qed.

(** When [save_mdc_file] reports a failure, the file is as before, or it
    holds the part of the new text that reached it. *)
Lemma save_mdc_file_fails (w w' : World) (p : string) (data : Utils.mdc) :
  Utils.save_mdc_file w p data = (Some false, w') →
  read_text w' p = read_text w p
  ∨ ∃ n, write_fault w p = Some n
         ∧ read_text w' p = ReadOk (String.substring 0 n (Utils.mdc_text data)).
Proof.
  unfold Utils.save_mdc_file.
  destruct (Utils.makedirs w (path_dirname p)) as [e w1] eqn:Hm.
  apply makedirs_keeps in Hm as (Hr & Hw & Ho).
  destruct e as [[]|].
  - intros [= <-]. left. by rewrite Hr.
  - done.
  - unfold Utils.open_w. destruct (Utils.has_null p); [done|].
    destruct (open_w_fault w1 p) as [[]|]; [intros [= <-]; left; by rewrite Hr|done|].
    rewrite Hw. destruct (write_fault w p) as [n|]; [|done].
    intros [= <-]. right. exists n. split; [done|].
    cbn [Utils.with_file read_text]. by rewrite String.eqb_refl.
Qed.

(** A name with a null character is never written. *)
Lemma save_mdc_file_null (w : World) (p : string) (data : Utils.mdc) :
  Utils.has_null p = true → fst (Utils.save_mdc_file w p data) ≠ Some true.
Proof.
  intros Hp. unfold Utils.save_mdc_file, Utils.open_w. rewrite Hp.
  destruct (Utils.makedirs w (path_dirname p)) as [[[]|] w1]; done.
Qed.

(** The answer [No se pudo escribir el archivo] is given for a failure
    reported by [save_mdc_file], and for nothing else. *)
Lemma generate_for_type_write_failed (w w' : World) (path t : string)
    (tech : gmap string pyval) (output_filename : string) (custom : option string)
    (verbose : bool) (e p t' : string) :
  Tools.generate_for_type text w path t tech output_filename custom verbose =
    (WriteFailed e p t', w') →
  e = "No se pudo escribir el archivo en: " +:+ output_path_of path output_filename
  ∧ p = path ∧ t' = t
  ∧ ∃ rules out w1,
      RuleGenerator.generate_rules text w (Some t) tech None verbose =
        Some (Some rules, out)
      ∧ Utils.makedirs w (path_join_all path [".cursor"; "rules"]) = (None, w1)
      ∧ Utils.save_mdc_file w1 (output_path_of path output_filename) rules =
          (Some false, w').
Proof.
  unfold Tools.generate_for_type. fold (output_path_of path output_filename).
  intros H.
  repeat match type of H with
         | context [match ?c with _ => _ end] => destruct c eqn:?; try discriminate H
         end.
  all: try discriminate H.
  - exfalso. injection H as -> _.
    match goal with Hc : _ = inl _ |- _ => revert Hc end.
    repeat case_match; discriminate.
  - injection H as <- <- <- <-. repeat split. eexists _, _, _. repeat split; eauto.
Qed.

(** A call with a type, given or detected, goes through steps 2 to 5. *)
Lemma generate_rules_tool_steps (w : World) (provided_path : option string)
    (output_filename : string) (custom : option string) (verbose : bool)
    (project_type : option string) :
  let path := Tools.get_project_path_from_context w provided_path in
  let r := Tools.generate_rules_tool text w provided_path output_filename custom
             verbose project_type in
  os_path_isdir w path = true →
  (∀ t, project_type = Some t → t ≠ "" →
        r = Tools.generate_for_type text w path t ∅ output_filename custom verbose)
  ∧ (project_type = None ∨ project_type = Some "" →
     ∀ c tech, Analyzer.analyze_project w path = (Some c, tech) →
               r = Tools.generate_for_type text w path (category_name c) tech
                     output_filename custom verbose).
Proof.
  intros path r Hdir. subst r. unfold Tools.generate_rules_tool. fold path.
  rewrite Hdir. cbn [negb]. split.
  - intros t -> Ht. by destruct (String.eqb_spec t "").
  - intros [->| ->] c tech ->; reflexivity.
Qed.

End Writing.

(** C9, as stated, fails: the write is not all-or-nothing.  On a disk where
    the write fails after five characters, the tool reports the failure,
    and the rules file that existed before the call holds the first five
    characters of the new rules. *)
Lemma write_failure_leaves_partial_file :
  ¬ (∀ (text : block → string) (w : World) (provided_path : option string)
       (output_filename : string) (custom_rules_path : option string)
       (verbose : bool) (project_type : option string),
       let r := Tools.generate_rules_tool text w provided_path output_filename
                  custom_rules_path verbose project_type in
       success (fst r) = false →
       ∀ q, read_text (snd r) q = read_text w q).
Proof.
  intros H.
  specialize (H Samples.short_text
                (Samples.failing_disk Samples.vue_with_old_rules
                   "/p/.cursor/rules/rules.mdc" 5)
                (Some "/p") "rules" None false None
                ltac:(vm_compute; reflexivity)
                "/p/.cursor/rules/rules.mdc").
  vm_compute in H. discriminate H.
Qed.

(** C9, amended.  For every call of [generate_rules_tool]: the answer
    [No se pudo escribir el archivo en:] is given exactly for a failure
    that [save_mdc_file] reports, an [OSError] met while the directory of
    the output file is made, the file is opened or the text is written;
    the error text holds the path of the output file.  The file is then
    either as it was before the call (the directory could not be made or
    the file could not be opened), or it holds the part of the new text
    that reached it before the fault, with its former content lost.  An
    exception that is not an [OSError], which a null character in the name
    gives, is not caught by [save_mdc_file]: the tool then gives its
    general answer, [Error durante la generación de reglas:] followed by
    the message of the exception. *)
Theorem write_failure_is_reported (text : block → string) (w : World)
    (provided_path : option string) (output_filename : string)
    (custom_rules_path : option string) (verbose : bool) (project_type : option string) :
  let r := Tools.generate_rules_tool text w provided_path output_filename
             custom_rules_path verbose project_type in
  let path := Tools.get_project_path_from_context w provided_path in
  let output_dir := path_join_all path [".cursor"; "rules"] in
  let output_path := output_path_of path output_filename in
  let report := "No se pudo escribir el archivo en: " +:+ output_path in
  (* the answer names the output file, and tells of a failed save *)
  (∀ e p t,
     fst r = WriteFailed e p t →
     e = report ∧ p = path
     ∧ success (fst r) = false
     ∧ Str.contains output_path e = true
     ∧ ∃ tech rules out w1,
         RuleGenerator.generate_rules text w (Some t) tech None verbose =
           Some (Some rules, out)
         ∧ Utils.makedirs w output_dir = (None, w1)
         ∧ Utils.save_mdc_file w1 output_path rules = (Some false, snd r)
         ∧ (read_text (snd r) output_path = read_text w output_path
            ∨ ∃ n, write_fault w output_path = Some n
                   ∧ read_text (snd r) output_path =
                       ReadOk (String.substring 0 n (Utils.mdc_text rules))))
  (* a call with a type, given or detected, goes through steps 2 to 5 *)
  ∧ (os_path_isdir w path = true →
     (∀ t, project_type = Some t → t ≠ "" →
           r = Tools.generate_for_type text w path t ∅ output_filename
                 custom_rules_path verbose)
     ∧ (project_type = None ∨ project_type = Some "" →
        ∀ c tech, Analyzer.analyze_project w path = (Some c, tech) →
                  r = Tools.generate_for_type text w path (category_name c) tech
                        output_filename custom_rules_path verbose))
  (* there, a failed save gives that answer, and an exception of the save
     the general one *)
  ∧ (∀ detected_type detected_tech rules out w1 saved w2,
       custom_rules_readable w custom_rules_path →
       RuleGenerator.generate_rules text w (Some detected_type) detected_tech None verbose =
         Some (Some rules, out) →
       Utils.makedirs w output_dir = (None, w1) →
       Utils.save_mdc_file w1 output_path rules = (saved, w2) →
       saved ≠ Some true →
       Tools.generate_for_type text w path detected_type detected_tech output_filename
         custom_rules_path verbose =
         (match saved with
          | Some _ => WriteFailed report path detected_type
          | None => Unexpected Tools.generation_error (Some path)
          end, w2))
  (* the general answer is also given when the output directory cannot be
     made at step 4 *)
  ∧ (∀ detected_type detected_tech rules out e w1,
       custom_rules_readable w custom_rules_path →
       RuleGenerator.generate_rules text w (Some detected_type) detected_tech None verbose =
         Some (Some rules, out) →
       Utils.makedirs w output_dir = (Some e, w1) →
       Tools.generate_for_type text w path detected_type detected_tech output_filename
         custom_rules_path verbose =
         (Unexpected Tools.generation_error (Some path), w1))
  (* a name with a null character is never written *)
  ∧ (Utils.has_null output_path = true →
     ∀ w1 rules, fst (Utils.save_mdc_file w1 output_path rules) ≠ Some true).
Proof.
  intros r path output_dir output_path report.
  split; [|split; [|split; [|split]]].
  - intros e p t Hr.
    assert (∃ tech, Tools.generate_for_type text w path t tech output_filename
                      custom_rules_path verbose = (WriteFailed e p t, snd r))
      as [tech Hg].
    { subst r. revert Hr. unfold Tools.generate_rules_tool. fold path.
      destruct (negb (os_path_isdir w path)); [done|].
      destruct (match project_type with
                | Some t0 => if negb (String.eqb t0 "") then Some t0 else None
                | None => None
                end) as [manual|].
      - destruct (Tools.generate_for_type text w path manual ∅ output_filename
                    custom_rules_path verbose) as [r0 w0] eqn:Hg.
        cbn [fst snd]. intros ->. exists ∅.
        destruct (generate_for_type_write_failed text _ _ _ _ _ _ _ _ _ _ _ Hg)
          as (_ & _ & -> & _). exact Hg.
      - destruct (Analyzer.analyze_project w path) as [[c|] tech]; [|done].
        destruct (Tools.generate_for_type text w path (category_name c) tech
                    output_filename custom_rules_path verbose) as [r0 w0] eqn:Hg.
        cbn [fst snd]. intros ->. exists tech.
        destruct (generate_for_type_write_failed text _ _ _ _ _ _ _ _ _ _ _ Hg)
          as (_ & _ & -> & _). exact Hg. }
    destruct (generate_for_type_write_failed text _ _ _ _ _ _ _ _ _ _ _ Hg)
      as (-> & -> & _ & rules & out & w1 & Hrules & Hdirs & Hsave).
    split; [done|]. split; [done|]. split; [by rewrite Hr|].
    split; [apply contains_later, contains_here, prefix_self|].
    exists tech, rules, out, w1. split; [done|]. split; [done|]. split; [done|].
    destruct (makedirs_keeps _ _ _ _ Hdirs) as (Hread & Hfault & _).
    destruct (save_mdc_file_fails _ _ _ _ Hsave) as [H|(n & Hn & H)].
    + left. rewrite <- Hread. exact H.
    + right. exists n. rewrite <- Hfault. split; [exact Hn|exact H].
  - apply generate_rules_tool_steps.
  - intros detected_type detected_tech rules out w1 saved w2 Hcustom Hrules Hdirs Hsave Hnot.
    unfold Tools.generate_for_type.
    assert (∀ c, RuleGenerator.generate_rules text w (Some detected_type) detected_tech
                   c verbose = Some (Some rules, out)) as Hany.
    { intros c. by rewrite generate_rules_ignores_custom. }
    unfold output_dir in Hdirs.
    fold (output_path_of path output_filename). fold output_path.
    destruct saved as [[]|]; [done| |];
      (destruct custom_rules_path as [c|]; cbn [custom_rules_readable] in Hcustom;
       [destruct (String.eqb_spec c "") as [->|Hc]; cbn [negb];
        [by rewrite Hany, Hdirs, Hsave|
         destruct Hcustom as [?|[Hex Hload]]; [done|]; rewrite Hex;
         destruct (Utils.load_mdc_file w c) as [[data|]|]; [| |done];
         by rewrite Hany, Hdirs, Hsave]
       |by rewrite Hany, Hdirs, Hsave]).
  - intros detected_type detected_tech rules out e w1 Hcustom Hrules Hdirs.
    unfold Tools.generate_for_type.
    assert (∀ c, RuleGenerator.generate_rules text w (Some detected_type) detected_tech
                   c verbose = Some (Some rules, out)) as Hany.
    { intros c. by rewrite generate_rules_ignores_custom. }
    unfold output_dir in Hdirs.
    destruct custom_rules_path as [c|]; cbn [custom_rules_readable] in Hcustom;
      [destruct (String.eqb_spec c "") as [->|Hc]; cbn [negb];
       [by rewrite Hany, Hdirs|
        destruct Hcustom as [?|[Hex Hload]]; [done|]; rewrite Hex;
        destruct (Utils.load_mdc_file w c) as [[data|]|]; [| |done];
        by rewrite Hany, Hdirs]
      |by rewrite Hany, Hdirs].
  - intros Hnull w1 rules. by apply save_mdc_file_null.
Qed.

Lemma write_failure_is_reported_witness :
  let w := Samples.failing_disk Samples.vue_with_old_rules "/p/.cursor/rules/rules.mdc" 5 in
  let r := Tools.generate_rules_tool Samples.short_text w (Some "/p") "rules" None false None in
  fst r = WriteFailed "No se pudo escribir el archivo en: /p/.cursor/rules/rules.mdc"
                      "/p" "vue"
  ∧ success (fst r) = false
  ∧ Str.contains "/p/.cursor/rules/rules.mdc"
      "No se pudo escribir el archivo en: /p/.cursor/rules/rules.mdc" = true
  ∧ read_text w "/p/.cursor/rules/rules.mdc" = ReadOk "# Old rules"
  ∧ read_text (snd r) "/p/.cursor/rules/rules.mdc" = ReadOk "# Vue".
Proof.
  intros w r.
  assert (fst r = WriteFailed "No se pudo escribir el archivo en: /p/.cursor/rules/rules.mdc"
                              "/p" "vue") as Hr by (vm_compute; reflexivity).
  destruct (write_failure_is_reported Samples.short_text w (Some "/p") "rules" None false None)
    as (H & _).
  destruct (H _ _ _ Hr) as (_ & _ & Hfail & Hnames & _).
  split; [exact Hr|]. split; [exact Hfail|]. split; [exact Hnames|].
  split; vm_compute; reflexivity.
Defined.

(** A null character in the output name: [open] raises [ValueError], which
    passes [save_mdc_file], and the tool gives its general answer. *)
Example null_in_output_name :
  let r := Tools.generate_rules_tool Samples.short_text Samples.vue_with_old_rules
             (Some "/p") Samples.name_with_null None false None in
  fst r = Unexpected Tools.generation_error (Some "/p")
  ∧ read_text (snd r) "/p/.cursor/rules/rules.mdc" = ReadOk "# Old rules".
Proof. vm_compute. split; reflexivity. Qed.

(** ** The security priority of a Python project *)

Section PythonPriority.

Lemma get_truthy_insert_ne (d : gmap string pyval) (k k' : string) (v : pyval) :
  k ≠ k' → get_truthy (<[k := v]> d) k' = get_truthy d k'.
Proof. intros. unfold get_truthy. by rewrite lookup_insert_ne. Qed.

Lemma python_security_priority_insert (d : gmap string pyval) (v : pyval) :
  Analyzer.python_security_priority (<["security_priority" := v]> d) =
    Analyzer.python_security_priority d.
Proof.
  unfold Analyzer.python_security_priority.
  by rewrite !get_truthy_insert_ne.
Qed.

Lemma priority_not_critical (a b c : bool) :
  (if a then "high" else if b || c then "medium" else "low") ≠ "critical".
Proof. destruct a, b, c; discriminate. Qed.

End PythonPriority.

(** C10.  When [check_python] returns [python], its details hold
    [security_priority], which is [high] if [debug_enabled] is set,
    otherwise [medium] if [hardcoded_secret_key] or [risky_packages] is set,
    otherwise [low]; it is never [critical]. *)
Theorem check_python_security_priority (w : World) (project_path : string)
    (details : gmap string pyval) :
  Analyzer.check_python w project_path = Returned (Some python) details →
  details !! "security_priority" =
    Some (PStr (if get_truthy details "debug_enabled" then "high"
                else if get_truthy details "hardcoded_secret_key"
                        || get_truthy details "risky_packages" then "medium"
                else "low"))
  ∧ details !! "security_priority" ≠ Some (PStr "critical").
Proof.
  unfold Analyzer.check_python. case_match; [|done]. intros [= <-].
  unfold Analyzer.python_details. cbv zeta.
  generalize (Analyzer.python_findings w project_path
                (List.filter
                   (fun indicator => os_path_exists w (path_join project_path indicator))
                   ["requirements.txt"; "setup.py"; "pyproject.toml"; "Pipfile";
                    "poetry.lock"; "manage.py"; "app.py"; "main.py"])).
  intros d. rewrite lookup_insert_eq, !get_truthy_insert_ne by done.
  unfold Analyzer.python_security_priority.
  split; [reflexivity|]. intros [= Hcrit]. by apply priority_not_critical in Hcrit.
Qed.

Lemma check_python_security_priority_witness :
  Analyzer.check_python Samples.flask_debug "/p" =
    Returned (Some python)
      (<["python_indicators" := PList ["app.py"]]>
         (<["is_flask" := PBool true]>
            (<["debug_enabled" := PBool true]>
               (<["frameworks_detected" := PList ["Flask"]]>
                  (<["security_priority" := PStr "high"]> ∅)))))
  ∧ (<["python_indicators" := PList ["app.py"]]>
       (<["is_flask" := PBool true]>
          (<["debug_enabled" := PBool true]>
             (<["frameworks_detected" := PList ["Flask"]]>
                (<["security_priority" := PStr "high"]> ∅)))) : gmap string pyval)
      !! "security_priority" = Some (PStr "high").
Proof.
  assert (Analyzer.check_python Samples.flask_debug "/p" =
          Returned (Some python)
            (<["python_indicators" := PList ["app.py"]]>
               (<["is_flask" := PBool true]>
                  (<["debug_enabled" := PBool true]>
                     (<["frameworks_detected" := PList ["Flask"]]>
                        (<["security_priority" := PStr "high"]> ∅)))))) as H
    by (vm_compute; reflexivity).
  split; [exact H|].
  exact (proj1 (check_python_security_priority Samples.flask_debug "/p" _ H)).
Defined.
